(** * ng-floating-ui: the floating tooltip directive

    A shallow embedding of the library's TypeScript sources:
    - [tokens.ts]: the global options token and its provider;
    - [helpers.ts]: the mouse/touch capability probe;
    - [floating.directive.ts]: the directive, in its latest revision
      (guarded [show]/[hide], [trigger], [disabled], [manual], server check),
      with the earlier revision's [show], [hide] and [createElement] kept in
      [Module Earlier] for comparison.
    Input changes are taken more liberally than the framework delivers them:
    any new input values, with or without a [disabled] entry in the changes.

    JS objects used as dictionaries (the options object, an element's inline
    style, the side table of [setArrowPosition]) are [gmap string _]; numbers
    are integers ([Z]) rendered in decimal; DOM nodes, views, timers and
    closures are identified by their allocation number.

    What the browser does with the values it is handed is modelled where the
    directive's behaviour depends on it: a class list refuses a class name
    that is no valid token with an exception, a timer's delay is converted
    to a signed 32-bit integer, an empty text content leaves no text node.
    Two things are left to the hypotheses of the properties: an inline style
    is the dictionary of the strings assigned to it, which is what the
    element keeps when they are lengths or empty, and a number is printed by
    its decimal numeral, which is what the string conversion gives for the
    integers a double holds exactly. *)

From Stdlib Require Import Ascii.
From stdpp Require Import base gmap strings list pretty.

Local Open Scope Z_scope.

(** ** tokens.ts *)

Module Tokens.

(** [{...a, ...b}]: own properties of [b] win over those of [a]. An options
    object is one whose properties hold numbers, as the type [GlobalOptions]
    declares them. *)
Definition spread (a b : gmap string Z) : gmap string Z := b ∪ a.

Definition DEFAULT_OPTIONS : gmap string Z :=
  <["longPressDelay" := 500]> (<["arrowPadding" := 5]> (<["arrowHeight" := 4]> ∅)).

Record InjectionToken := { desc : string; factory : unit → gmap string Z }.

Definition FLOATING_UI_OPTIONS : InjectionToken :=
  {| desc := "FLOATING_UI_OPTIONS"; factory := λ _, DEFAULT_OPTIONS |}.

Record Provider := { provide : InjectionToken; useValue : gmap string Z }.

Definition provideFloatingUiOptions (options : gmap string Z) : list Provider :=
  [ {| provide := FLOATING_UI_OPTIONS;
       useValue := spread (spread ∅ DEFAULT_OPTIONS) options |} ].

(** Resolution of a token against the application's providers: the last
    provider registered for the token wins, and a token nobody provides is
    built by its own factory. *)
Fixpoint inject (tok : InjectionToken) (providers : list Provider) : gmap string Z :=
  match providers with
  | [] => factory tok ()
  | p :: rest =>
      if existsb (λ q, String.eqb (desc (provide q)) (desc tok)) rest then inject tok rest
      else if String.eqb (desc (provide p)) (desc tok) then useValue p
      else inject tok rest
  end.

End Tokens.

(** ** helpers.ts *)

Module Helpers.

(** The two user-agent tests, taken as the outcome of the regular
    expressions on [navigator.userAgent]. *)
Record Navigator := { isIOS : bool; isAndroid : bool }.

Definition supportsMouseEvents (nav : Navigator) : bool :=
  negb (isIOS nav) && negb (isAndroid nav).

End Helpers.

(** ** Positioning types of the geometry library *)

Inductive Side := top | right | bottom | left.
Inductive Alignment := start | end_.
Definition Placement : Type := Side * option Alignment.

Definition side_string (s : Side) : string :=
  match s with top => "top" | right => "right" | bottom => "bottom" | left => "left" end.

Definition placement_string (p : Placement) : string :=
  match p with
  | (s, None) => side_string s
  | (s, Some start) => side_string s +:+ "-start"
  | (s, Some end_) => side_string s +:+ "-end"
  end.

(** The twelve placements, in the order of the demo application. *)
Definition placements : list Placement :=
  [ (top, None); (right, None); (bottom, None); (left, None);
    (top, Some end_); (top, Some start); (right, Some end_); (right, Some start);
    (bottom, Some end_); (bottom, Some start); (left, Some end_); (left, Some start) ].

Inductive Middleware :=
  | MOffset (distance : Z)
  | MFlip
  | MShift
  | MArrow (element : option nat) (padding : option Z).

Record ArrowData := { arrow_x : option Z; arrow_y : option Z }.

Record ComputePositionReturn :=
  { cp_x : Z; cp_y : Z; cp_placement : Placement; cp_arrow : ArrowData }.

(** ** DOM and framework objects *)

Inductive Callback := CbShow | CbHide | CbToggle | CbWheel | CbTouchstart | CbTouchend.

(** A closure: its identity (two evaluations of the same arrow function are
    two closures) and its body. *)
Record Handler := { h_id : nat; h_body : Callback }.

Record ListenerOptions := { passive : bool }.

(** One [Parameters<addEventListener>] tuple. *)
Record Listener :=
  { l_event : string; l_handler : Handler; l_options : ListenerOptions }.

#[warnings="-register-all"]
Inductive Node :=
  | Div (id : nat) (classes : list string) (attrs : list (string * string))
        (children : list Node)
  | TextNode (text : string)
  | ViewRoot (view : nat) (root : string)
  | HostEl (component : nat).

Definition node_is (el : nat) (n : Node) : bool :=
  match n with Div id _ _ _ => Nat.eqb id el | _ => false end.

Inductive ViewContext := CtxClose | CtxPlaceholder (n : Z).

Record EmbeddedView := { v_id : nat; v_roots : list string; v_context : ViewContext }.

Record ComponentInst := { c_id : nat; c_class : string; c_injector : nat }.

Record AutoUpdate :=
  { au_id : nat; au_floating : nat; au_arrow : option nat;
    au_placement : option Placement; au_middleware : list Middleware }.

Record Timer := { t_id : nat; t_due : nat; t_callback : Callback }.

Record TemplateRef := { tpl_roots : list string }.

(** A component class; [String(cls)] is its source text. *)
Record ComponentClass := { cls_name : string; cls_source : string }.

Inductive TooltipContent :=
  | ContentTemplate (tpl : TemplateRef)
  | ContentString (s : string)
  | ContentNumber (n : Z)
  | ContentComponent (cls : ComponentClass).

Inductive TooltipTrigger := click | hover.

(** What the directive is given once and never reassigns. *)
Record Env :=
  { navigator : Helpers.Navigator;
    nodeName : string;
    draggable : bool;
    envInjector : nat;
    isServer : bool;
    options : gmap string Z }.

Record Inputs :=
  { content : TooltipContent;
    trigger : TooltipTrigger;
    placement : option Placement;
    showArrow : bool;
    offset : option Z;
    cssModifier : option string;
    disabled : bool;
    manual : bool }.

(** The directive's private fields. *)
Record Fields :=
  { _isVisible : bool;
    tooltipElRef : option nat;
    embdedViewRef : option nat;
    componentRef : option nat;
    cleanupFn : option nat;
    eventListeners : list Listener;
    touchstartTimeout : option nat }.

(** Everything outside the directive that it reads or writes. *)
Record World :=
  { style : gmap string string;
    attached : list Listener;
    body : list Node;
    views : list EmbeddedView;
    components : list ComponentInst;
    appViews : list nat;
    tracking : list AutoUpdate;
    timers : list Timer;
    now : nat;
    next : nat }.

Record State := { inputs : Inputs; this : Fields; world : World }.

Definition initial_fields : Fields :=
  {| _isVisible := false; tooltipElRef := None; embdedViewRef := None;
     componentRef := None; cleanupFn := None; eventListeners := [];
     touchstartTimeout := None |}.

Definition initial_world : World :=
  {| style := ∅; attached := []; body := []; views := []; components := [];
     appViews := []; tracking := []; timers := []; now := 0%nat; next := 0%nat |}.

Definition initial (i : Inputs) : State :=
  {| inputs := i; this := initial_fields; world := initial_world |}.

(** *** Field updates *)

Definition set_disabled (v : bool) (i : Inputs) : Inputs :=
  {| content := content i; trigger := trigger i; placement := placement i;
     showArrow := showArrow i; offset := offset i; cssModifier := cssModifier i;
     disabled := v; manual := manual i |}.

Definition set_isVisible (v : bool) (f : Fields) : Fields :=
  {| _isVisible := v; tooltipElRef := tooltipElRef f; embdedViewRef := embdedViewRef f;
     componentRef := componentRef f; cleanupFn := cleanupFn f;
     eventListeners := eventListeners f; touchstartTimeout := touchstartTimeout f |}.

Definition set_tooltipElRef (v : option nat) (f : Fields) : Fields :=
  {| _isVisible := _isVisible f; tooltipElRef := v; embdedViewRef := embdedViewRef f;
     componentRef := componentRef f; cleanupFn := cleanupFn f;
     eventListeners := eventListeners f; touchstartTimeout := touchstartTimeout f |}.

Definition set_embdedViewRef (v : option nat) (f : Fields) : Fields :=
  {| _isVisible := _isVisible f; tooltipElRef := tooltipElRef f; embdedViewRef := v;
     componentRef := componentRef f; cleanupFn := cleanupFn f;
     eventListeners := eventListeners f; touchstartTimeout := touchstartTimeout f |}.

Definition set_componentRef (v : option nat) (f : Fields) : Fields :=
  {| _isVisible := _isVisible f; tooltipElRef := tooltipElRef f;
     embdedViewRef := embdedViewRef f; componentRef := v; cleanupFn := cleanupFn f;
     eventListeners := eventListeners f; touchstartTimeout := touchstartTimeout f |}.

Definition set_cleanupFn (v : option nat) (f : Fields) : Fields :=
  {| _isVisible := _isVisible f; tooltipElRef := tooltipElRef f;
     embdedViewRef := embdedViewRef f; componentRef := componentRef f; cleanupFn := v;
     eventListeners := eventListeners f; touchstartTimeout := touchstartTimeout f |}.

Definition set_eventListeners (v : list Listener) (f : Fields) : Fields :=
  {| _isVisible := _isVisible f; tooltipElRef := tooltipElRef f;
     embdedViewRef := embdedViewRef f; componentRef := componentRef f;
     cleanupFn := cleanupFn f; eventListeners := v;
     touchstartTimeout := touchstartTimeout f |}.

Definition set_touchstartTimeout (v : option nat) (f : Fields) : Fields :=
  {| _isVisible := _isVisible f; tooltipElRef := tooltipElRef f;
     embdedViewRef := embdedViewRef f; componentRef := componentRef f;
     cleanupFn := cleanupFn f; eventListeners := eventListeners f;
     touchstartTimeout := v |}.

Definition set_style (v : gmap string string) (w : World) : World :=
  {| style := v; attached := attached w; body := body w; views := views w;
     components := components w; appViews := appViews w; tracking := tracking w;
     timers := timers w; now := now w; next := next w |}.

Definition set_attached (v : list Listener) (w : World) : World :=
  {| style := style w; attached := v; body := body w; views := views w;
     components := components w; appViews := appViews w; tracking := tracking w;
     timers := timers w; now := now w; next := next w |}.

Definition set_body (v : list Node) (w : World) : World :=
  {| style := style w; attached := attached w; body := v; views := views w;
     components := components w; appViews := appViews w; tracking := tracking w;
     timers := timers w; now := now w; next := next w |}.

Definition set_views (v : list EmbeddedView) (w : World) : World :=
  {| style := style w; attached := attached w; body := body w; views := v;
     components := components w; appViews := appViews w; tracking := tracking w;
     timers := timers w; now := now w; next := next w |}.

Definition set_components (v : list ComponentInst) (w : World) : World :=
  {| style := style w; attached := attached w; body := body w; views := views w;
     components := v; appViews := appViews w; tracking := tracking w;
     timers := timers w; now := now w; next := next w |}.

Definition set_appViews (v : list nat) (w : World) : World :=
  {| style := style w; attached := attached w; body := body w; views := views w;
     components := components w; appViews := v; tracking := tracking w;
     timers := timers w; now := now w; next := next w |}.

Definition set_tracking (v : list AutoUpdate) (w : World) : World :=
  {| style := style w; attached := attached w; body := body w; views := views w;
     components := components w; appViews := appViews w; tracking := v;
     timers := timers w; now := now w; next := next w |}.

Definition set_timers (v : list Timer) (w : World) : World :=
  {| style := style w; attached := attached w; body := body w; views := views w;
     components := components w; appViews := appViews w; tracking := tracking w;
     timers := v; now := now w; next := next w |}.

Definition set_now (v : nat) (w : World) : World :=
  {| style := style w; attached := attached w; body := body w; views := views w;
     components := components w; appViews := appViews w; tracking := tracking w;
     timers := timers w; now := v; next := next w |}.

Definition set_next (v : nat) (w : World) : World :=
  {| style := style w; attached := attached w; body := body w; views := views w;
     components := components w; appViews := appViews w; tracking := tracking w;
     timers := timers w; now := now w; next := v |}.

Definition on_this (f : Fields → Fields) (s : State) : State :=
  {| inputs := inputs s; this := f (this s); world := world s |}.

Definition on_world (f : World → World) (s : State) : State :=
  {| inputs := inputs s; this := this s; world := f (world s) |}.

Definition on_inputs (f : Inputs → Inputs) (s : State) : State :=
  {| inputs := f (inputs s); this := this s; world := world s |}.

(** Allocation of a fresh identity (element, view, closure, timer). *)
Definition fresh (s : State) : nat * State :=
  (next (world s), on_world (set_next (S (next (world s)))) s).

(** ** floating.directive.ts, latest revision *)

Section Directive.

Context (env : Env).

(** *** The DOM operations the directive calls *)

(** A registration is identified by event type, callback identity and the
    capture flag (never set here); a second identical registration is
    discarded by the DOM. *)
Definition same_registration (a b : Listener) : bool :=
  String.eqb (l_event a) (l_event b) && Nat.eqb (h_id (l_handler a)) (h_id (l_handler b)).

Definition addEventListener (att : list Listener) (l : Listener) : list Listener :=
  if existsb (same_registration l) att then att else att ++ [l].

Definition removeEventListener (att : list Listener) (l : Listener) : list Listener :=
  List.filter (λ a, negb (same_registration l a)) att.

Definition clearTimeout (t : option nat) (s : State) : State :=
  match t with
  | None => s
  | Some id =>
      on_world (λ w, set_timers (List.filter (λ x, negb (Nat.eqb (t_id x) id)) (timers w)) w) s
  end.

(** The delay of a timer is converted to a signed 32-bit integer (an undefined
    delay to 0), and a negative result counts as 0: a delay of 2^31 or more
    wraps around. *)
Definition to_int32 (z : Z) : Z := (z + 2 ^ 31) mod 2 ^ 32 - 2 ^ 31.

Definition timeout_ms (delay : option Z) : nat := Z.to_nat (to_int32 (default 0%Z delay)).

Definition setTimeout (cb : Callback) (delay : option Z) (s : State) : nat * State :=
  let '(id, s1) := fresh s in
  (id, on_world (λ w, set_timers (timers w ++
         [ {| t_id := id; t_due := (now w + timeout_ms delay)%nat;
              t_callback := cb |} ]) w) s1).

Definition appendChild (parent child : Node) : Node :=
  match parent with
  | Div id cls attrs children => Div id cls attrs (children ++ [child])
  | n => n
  end.

Definition setAttribute (el : Node) (name value : string) : Node :=
  match el with
  | Div id cls attrs children =>
      Div id cls
        (List.filter (λ a, negb (String.eqb (fst a) name)) attrs ++ [(name, value)])
        children
  | n => n
  end.

(** [el.textContent = text] replaces the children by one text node, or by
    nothing when the text is empty. *)
Definition set_textContent (el : Node) (text : string) : Node :=
  match el with
  | Div id cls attrs _ =>
      Div id cls attrs (if String.eqb text "" then [] else [TextNode text])
  | n => n
  end.

Definition node_id (n : Node) : option nat :=
  match n with Div id _ _ _ => Some id | _ => None end.

(** [String(this.content)]; a number is an integer, printed in decimal as
    [String] prints the integers a double holds exactly (below 2^53 in
    absolute value). *)
Definition String_of (c : TooltipContent) : string :=
  match c with
  | ContentTemplate _ => "[object Object]"
  | ContentString s => s
  | ContentNumber n => pretty n
  | ContentComponent cls => cls_source cls
  end.

(** JS truthiness of an optional number and of an optional string. *)
Definition truthy_num (o : option Z) : bool :=
  match o with Some n => negb (n =? 0) | None => false end.

Definition truthy_str (o : option string) : bool :=
  match o with Some s => negb (String.eqb s "") | None => false end.

(** *** Calls that may throw

    [renderer.addClass] adds a token to the element's class list, and the
    class list refuses a token that is empty or holds ASCII white space with
    a DOM exception. A call that may throw gives the value it returns, or
    [None] when an exception left it, and in both cases the state it leaves.
    ASCII white space is tab, line feed, form feed, carriage return and
    space (character codes 9, 10, 12, 13 and 32). *)
Definition ascii_whitespace (c : Ascii.ascii) : bool :=
  existsb (Ascii.eqb c) ["009"; "010"; "012"; "013"; " "]%char.

Fixpoint has_whitespace (t : string) : bool :=
  match t with
  | EmptyString => false
  | String c rest => ascii_whitespace c || has_whitespace rest
  end.

Definition valid_token (t : string) : bool :=
  negb (String.eqb t "") && negb (has_whitespace t).

Definition Try (A : Type) : Type := option A * State.

Definition and_then {A B : Type} (r : Try A) (k : A → State → Try B) : Try B :=
  match r with
  | (Some a, s) => k a s
  | (None, s) => (None, s)
  end.

(** *** Private methods *)

(** [className] is a string or an array of strings; a string is passed here
    as the one-element array. The element is created before its classes are
    added. *)
Definition createEl (classNames : list string) (s : State) : Try Node :=
  let '(id, s1) := fresh s in
  if forallb valid_token classNames then (Some (Div id classNames [] []), s1)
  else (None, s1).

Definition createElement (createArrow : bool) (s : State) : Try (nat * option nat) :=
  let tooltipClassNames := ["floating-tooltip"] in
  let tooltipClassNames :=
    if truthy_str (cssModifier (inputs s))
    then tooltipClassNames ++ ["floating-tooltip_" +:+ default "" (cssModifier (inputs s))]
    else tooltipClassNames in
  and_then (createEl tooltipClassNames s) (λ tooltipEl s,
  and_then (createEl ["floating-tooltip__content"] s) (λ tooltipContent s,
    let tooltipEl := setAttribute tooltipEl "tabindex" "-1" in
    let '(tooltipContent, s) :=
      match content (inputs s) with
      | ContentTemplate tpl =>
          let '(v, s) := fresh s in
          let s := on_world (λ w, set_views (views w ++
                     [ {| v_id := v; v_roots := tpl_roots tpl; v_context := CtxClose |} ]) w) s in
          let s := on_this (set_embdedViewRef (Some v)) s in
          (fold_left (λ el node, appendChild el (ViewRoot v node)) (tpl_roots tpl)
             tooltipContent, s)
      | c => (set_textContent tooltipContent (String_of c), s)
      end in
    and_then
      (if createArrow then
         and_then (createEl ["floating-tooltip__arrow"] s) (λ arrowEl s,
           (Some (node_id arrowEl, appendChild tooltipEl arrowEl), s))
       else (Some (None, tooltipEl), s))
      (λ '(arrowEl, tooltipEl) s,
        let tooltipEl := appendChild tooltipEl tooltipContent in
        let s := on_world (λ w, set_body (body w ++ [tooltipEl]) w) s in
        (Some (default 0%nat (node_id tooltipEl), arrowEl), s)))).

Definition render (s : State) : Try unit :=
  and_then (createElement (showArrow (inputs s)) s) (λ '(tooltipEl, arrowEl) s,
    let middleware := [MFlip; MShift] in
    let middleware :=
      if truthy_num (offset (inputs s))
      then MOffset (default 0 (offset (inputs s))) :: middleware else middleware in
    let middleware :=
      if showArrow (inputs s)
      then middleware ++ [MArrow arrowEl (options env !! "arrowPadding")] else middleware in
    let '(sub, s) := fresh s in
    let s := on_world (λ w, set_tracking (tracking w ++
               [ {| au_id := sub; au_floating := tooltipEl; au_arrow := arrowEl;
                    au_placement := placement (inputs s); au_middleware := middleware |} ]) w) s in
    let s := on_this (set_cleanupFn (Some sub)) s in
    (Some (), on_this (set_tooltipElRef (Some tooltipEl)) s)).

Definition destroy (s : State) : State :=
  let s :=
    match embdedViewRef (this s) with
    | Some v =>
        on_world (λ w, set_views (List.filter (λ x, negb (Nat.eqb (v_id x) v)) (views w)) w) s
    | None => s
    end in
  let s :=
    match componentRef (this s) with
    | Some c =>
        on_world (λ w,
          set_appViews (List.filter (λ x, negb (Nat.eqb x c)) (appViews w))
            (set_components (List.filter (λ x, negb (Nat.eqb (c_id x) c)) (components w)) w)) s
    | None => s
    end in
  let s :=
    match tooltipElRef (this s) with
    | Some el => on_world (λ w, set_body (List.filter (λ n, negb (node_is el n)) (body w)) w) s
    | None => s
    end in
  let s :=
    match cleanupFn (this s) with
    | Some sub =>
        on_world (λ w,
          set_tracking (List.filter (λ x, negb (Nat.eqb (au_id x) sub)) (tracking w)) w) s
    | None => s
    end in
  clearTimeout (touchstartTimeout (this s)) s.

(** *** Public API

    [render] is the last call of [show], [show] the last call of [toggle] and
    of every handler and timer callback that calls it, and nothing catches:
    an exception under [render] leaves them all, and the state they leave is
    the state at the throw. [show_throws] tells whether [show] is left by an
    exception. *)
Definition show (s : State) : State :=
  if _isVisible (this s) then s
  else snd (render (destroy (on_this (set_isVisible true) s))).

Definition show_throws (s : State) : bool :=
  if _isVisible (this s) then false
  else match fst (render (destroy (on_this (set_isVisible true) s))) with
       | Some _ => false
       | None => true
       end.

Definition hide (s : State) : State :=
  if negb (_isVisible (this s)) then s
  else destroy (on_this (set_isVisible false) s).

Definition toggle (s : State) : State :=
  if _isVisible (this s) then hide s else show s.

Definition isVisible (s : State) : bool := _isVisible (this s).

(** *** Gesture wiring *)

(** Evaluation of an arrow function: a new closure. *)
Definition closure (cb : Callback) (s : State) : Handler * State :=
  let '(id, s1) := fresh s in ({| h_id := id; h_body := cb |}, s1).

Definition addListener (event : string) (callback : Handler) (s : State) : State :=
  on_this (λ f, set_eventListeners (eventListeners f ++
    [ {| l_event := event; l_handler := callback; l_options := {| passive := true |} |} ]) f) s.

Definition disableNativeGestures (s : State) : State :=
  let s :=
    if negb (String.eqb (nodeName env) "INPUT") && negb (String.eqb (nodeName env) "TEXTAREA")
    then on_world (λ w, set_style
           (<["userSelect" := "none"]> (<["msUserSelect" := "none"]>
             (<["webkitUserSelect" := "none"]> (<["MozUserSelect" := "none"]> (style w))))) w) s
    else s in
  let s :=
    if negb (draggable env)
    then on_world (λ w, set_style (<["webkitUserDrag" := "none"]> (style w)) w) s
    else s in
  let s := on_world (λ w, set_style (<["touchAction" := "none"]> (style w)) w) s in
  on_world (λ w, set_style (<["webkitTapHighlightColor" := "transparent"]> (style w)) w) s.

Definition setupFocusAndBlurEvents (s : State) : State :=
  let '(h, s) := closure CbShow s in
  let s := addListener "focus" h s in
  let '(h, s) := closure CbHide s in
  addListener "blur" h s.

Definition setupClickEvents (s : State) : State :=
  let '(h, s) := closure CbToggle s in
  addListener "click" h s.

Definition setupMouseEvents (s : State) : State :=
  let '(h, s) := closure CbShow s in
  let s := addListener "mouseenter" h s in
  let '(h, s) := closure CbHide s in
  let s := addListener "mouseleave" h s in
  let '(h, s) := closure CbWheel s in
  addListener "wheel" h s.

Definition setupTouchEvents (s : State) : State :=
  let s := disableNativeGestures s in
  let '(h, s) := closure CbTouchstart s in
  let s := addListener "touchstart" h s in
  let '(touchendListener, s) := closure CbTouchend s in
  let s := addListener "touchend" touchendListener s in
  addListener "touchcancel" touchendListener s.

Definition setupListeners (s : State) : State :=
  let s :=
    match trigger (inputs s) with
    | click => setupClickEvents s
    | hover =>
        let s := setupFocusAndBlurEvents s in
        if Helpers.supportsMouseEvents (navigator env)
        then setupMouseEvents s else setupTouchEvents s
    end in
  on_world (λ w, set_attached (fold_left addEventListener (eventListeners (this s)) (attached w)) w) s.

Definition removeListeners (s : State) : State :=
  on_world (λ w,
    set_attached (fold_left removeEventListener (eventListeners (this s)) (attached w)) w) s.

(** *** Callback bodies

    [underTrigger] is what the wheel handler computes from the event: the
    element under the pointer is the trigger or one of its descendants. *)
Definition run_callback (cb : Callback) (underTrigger : bool) (s : State) : State :=
  match cb with
  | CbShow => show s
  | CbHide => hide s
  | CbToggle => toggle s
  | CbWheel =>
      if _isVisible (this s) then (if negb underTrigger then hide s else s) else s
  | CbTouchstart =>
      let s := clearTimeout (touchstartTimeout (this s)) s in
      let '(id, s) := setTimeout CbShow (options env !! "longPressDelay") s in
      on_this (set_touchstartTimeout (Some id)) s
  | CbTouchend =>
      hide (clearTimeout (touchstartTimeout (this s)) s)
  end.

(** *** Lifecycle hooks *)

Record SimpleChange := { firstChange : bool }.

Definition ngAfterViewInit (s : State) : State :=
  if manual (inputs s) || isServer env || disabled (inputs s) then s
  else setupListeners s.

(** [changes] is the entry [changes['disabled']], if any. *)
Definition ngOnChanges (changes : option SimpleChange) (s : State) : State :=
  match changes with
  | Some c =>
      if negb (firstChange c) then
        if manual (inputs s) || isServer env then s
        else if disabled (inputs s) then
          removeListeners (if _isVisible (this s) then destroy s else s)
        else setupListeners s
      else s
  | None => s
  end.

Definition ngOnDestroy (s : State) : State := removeListeners (destroy s).

(** *** Position updates *)

Definition arrowSideTable : gmap string string :=
  <["left" := "right"]> (<["bottom" := "top"]> (<["right" := "left"]> (<["top" := "bottom"]> ∅))).

(** [`${n}`] for a number that may be undefined; a number is an integer,
    printed by its decimal numeral. *)
Definition interpolate (o : option Z) : string :=
  match o with Some n => pretty n | None => "undefined" end.

Definition px (n : Z) : string := pretty n +:+ "px".

(** [s.split(sep)[0]] *)
Fixpoint split_head (sep : Ascii.ascii) (s : string) : string :=
  match s with
  | EmptyString => EmptyString
  | String c rest => if Ascii.eqb c sep then EmptyString else String c (split_head sep rest)
  end.

(** [tooltipSide] is the first segment of a placement, one of the four side
    names; [arrowSide] is the side table's own property of that name. The
    arrow's style is the dictionary of the strings assigned: [Object.assign]
    copies the source's properties onto it, the computed key last written
    winning over the literal one of the same name. *)
Definition setArrowPosition (arrowStyle : gmap string string) (tooltipSide : string)
    (arrowMiddleware : ArrowData) : gmap string string :=
  let arrowX := arrow_x arrowMiddleware in
  let arrowY := arrow_y arrowMiddleware in
  let arrowSide := arrowSideTable !! tooltipSide in
  let source : gmap string string :=
    <[default "undefined" arrowSide := "-" +:+ interpolate (options env !! "arrowHeight") +:+ "px"]>
      (<["bottom" := ""]> (<["right" := ""]>
        (<["top" := match arrowY with Some y => px y | None => "" end]>
          (<["left" := match arrowX with Some x => px x | None => "" end]> ∅)))) in
  source ∪ arrowStyle.

(** The body of [setTooltipPosition] once [computePosition] has resolved to
    [res]; the styles are those of the panel and of its arrow, if any. *)
Definition setTooltipPosition (tooltipStyle : gmap string string)
    (arrowStyle : option (gmap string string)) (res : ComputePositionReturn)
    : gmap string string * option (gmap string string) :=
  let tooltipStyle := <["left" := px (cp_x res)]> tooltipStyle in
  let tooltipStyle := <["top" := px (cp_y res)]> tooltipStyle in
  match arrowStyle with
  | Some st =>
      let tooltipSide := split_head "-" (placement_string (cp_placement res)) in
      (tooltipStyle, Some (setArrowPosition st tooltipSide (cp_arrow res)))
  | None => (tooltipStyle, None)
  end.

(** *** The event loop around one instance *)

Inductive Event :=
  | EvAfterViewInit
  | EvChanges (new : Inputs) (disabledChange : option SimpleChange)
  | EvDestroy
  | EvShow
  | EvHide
  | EvToggle
  | EvDom (type : string) (underTrigger : bool)
  | EvAdvance (dt : nat).

(** Listeners of the trigger registered for [type], called in registration
    order. *)
Definition dispatch (type : string) (underTrigger : bool) (s : State) : State :=
  fold_left
    (λ st l, if String.eqb (l_event l) type
             then run_callback (h_body (l_handler l)) underTrigger st else st)
    (attached (world s)) s.

Definition due (w : World) (t : Timer) : bool := Nat.leb (t_due t) (now w).

(** Runs the pending timers that are due, one at a time, a timer being
    removed from the pending ones before its callback runs. *)
Fixpoint run_timers (fuel : nat) (s : State) : State :=
  match fuel with
  | O => s
  | S n =>
      match List.find (due (world s)) (timers (world s)) with
      | None => s
      | Some t =>
          run_timers n (run_callback (t_callback t) true (clearTimeout (Some (t_id t)) s))
      end
  end.

Definition advance (dt : nat) (s : State) : State :=
  let s := on_world (λ w, set_now (now w + dt)%nat w) s in
  run_timers (length (timers (world s))) s.

Definition step (s : State) (e : Event) : State :=
  match e with
  | EvAfterViewInit => ngAfterViewInit s
  | EvChanges new c => ngOnChanges c (on_inputs (λ _, new) s)
  | EvDestroy => ngOnDestroy s
  | EvShow => show s
  | EvHide => hide s
  | EvToggle => toggle s
  | EvDom type under => dispatch type under s
  | EvAdvance dt => advance dt s
  end.

Definition run (s : State) (es : list Event) : State := fold_left step es s.

End Directive.

(** The panels of the instance that are in the document. *)
Definition panels (s : State) : list Node := body (world s).

(** Handlers registered on the trigger for one event type. *)
Definition handlers_for (type : string) (s : State) : list Listener :=
  List.filter (λ l, String.eqb (l_event l) type) (attached (world s)).

(** ** floating.directive.ts, earlier revision: unguarded [show] and [hide],
    component content *)

Module Earlier.

Definition createElement (env : Env) (createArrow : bool) (s : State)
    : Try (nat * option nat) :=
  and_then (createEl ["floating-tooltip"] s) (λ tooltipEl s,
  and_then (createEl ["floating-tooltip__content"] s) (λ tooltipContent s,
  let tooltipEl := setAttribute tooltipEl "tabindex" "-1" in
  let '(tooltipContent, s) :=
    match content (inputs s) with
    | ContentTemplate tpl =>
        let '(v, s) := fresh s in
        let s := on_world (λ w, set_views (views w ++
                   [ {| v_id := v; v_roots := tpl_roots tpl;
                        v_context := CtxPlaceholder 123 |} ]) w) s in
        let s := on_this (set_embdedViewRef (Some v)) s in
        (fold_left (λ el node, appendChild el (ViewRoot v node)) (tpl_roots tpl) tooltipContent, s)
    | ContentString _ | ContentNumber _ =>
        (set_textContent tooltipContent (String_of (content (inputs s))), s)
    | ContentComponent cls =>
        let '(c, s) := fresh s in
        let s := on_world (λ w, set_components (components w ++
                   [ {| c_id := c; c_class := cls_name cls;
                        c_injector := envInjector env |} ]) w) s in
        let s := on_this (set_componentRef (Some c)) s in
        let s := on_world (λ w, set_appViews (appViews w ++ [c]) w) s in
        (appendChild tooltipContent (HostEl c), s)
    end in
  and_then
    (if createArrow then
       and_then (createEl ["floating-tooltip__arrow"] s) (λ arrowEl s,
         (Some (node_id arrowEl, appendChild tooltipEl arrowEl), s))
     else (Some (None, tooltipEl), s))
    (λ '(arrowEl, tooltipEl) s,
      let tooltipEl := appendChild tooltipEl tooltipContent in
      let s := on_world (λ w, set_body (body w ++ [tooltipEl]) w) s in
      (Some (default 0%nat (node_id tooltipEl), arrowEl), s)))).

Definition render (env : Env) (s : State) : Try unit :=
  and_then (createElement env (showArrow (inputs s)) s) (λ '(tooltipEl, arrowEl) s,
    let middleware := [MFlip; MShift] in
    let middleware :=
      if truthy_num (offset (inputs s))
      then MOffset (default 0 (offset (inputs s))) :: middleware else middleware in
    let middleware :=
      if showArrow (inputs s)
      then middleware ++ [MArrow arrowEl (options env !! "arrowPadding")] else middleware in
    let '(sub, s) := fresh s in
    let s := on_world (λ w, set_tracking (tracking w ++
               [ {| au_id := sub; au_floating := tooltipEl; au_arrow := arrowEl;
                    au_placement := placement (inputs s); au_middleware := middleware |} ]) w) s in
    let s := on_this (set_cleanupFn (Some sub)) s in
    (Some (), on_this (set_tooltipElRef (Some tooltipEl)) s)).

Definition show (env : Env) (s : State) : State :=
  snd (render env (on_this (set_isVisible true) s)).

Definition hide (s : State) : State :=
  destroy (on_this (set_isVisible false) s).

End Earlier.

(** * Vocabulary of the properties *)

(** The side mapping in the words of the specification: top and bottom are
    exchanged, and so are left and right. *)
Definition opposite_side (s : Side) : Side :=
  match s with top => bottom | bottom => top | left => right | right => left end.

(** The style property that carries the arrow's offset along the panel's
    edge: [left] when the panel is above or below the trigger, [top] when it
    is beside it; the arrow middleware reports it as [x] or [y]. *)
Definition cross_axis (s : Side) (a : ArrowData) : string * option Z :=
  match s with
  | top | bottom => ("left", arrow_x a)
  | left | right => ("top", arrow_y a)
  end.

Definition px_or_empty (o : option Z) : string :=
  match o with Some n => px n | None => "" end.

(** ** Ownership invariants

    [owns same ref l]: the list [l] of live objects of some kind (panels in
    the document, embedded views, position subscriptions, pending timers)
    is empty or holds exactly the object the directive's field [ref] names. *)
Definition owns {A} (same : nat → A → bool) (ref : option nat) (l : list A) : Prop :=
  l = [] ∨ ∃ x r, ref = Some r ∧ same r x = true ∧ l = [x].

Definition view_is (r : nat) (v : EmbeddedView) : bool := Nat.eqb (v_id v) r.
Definition tracker_is (r : nat) (a : AutoUpdate) : bool := Nat.eqb (au_id a) r.
Definition timer_is (r : nat) (t : Timer) : bool := Nat.eqb (t_id t) r.

Record Inv (s : State) : Prop :=
  { inv_body : owns node_is (tooltipElRef (this s)) (body (world s));
    inv_views : owns view_is (embdedViewRef (this s)) (views (world s));
    inv_tracking : owns tracker_is (cleanupFn (this s)) (tracking (world s));
    inv_timers : owns timer_is (touchstartTimeout (this s)) (timers (world s));
    inv_callbacks : Forall (λ t, t_callback t = CbShow) (timers (world s));
    inv_components : components (world s) = [] ∧ appViews (world s) = []
                     ∧ componentRef (this s) = None;
    inv_attached : ∀ l, In l (attached (world s)) → In l (eventListeners (this s)) }.

(** [wired s s']: [s'] is [s] with more recorded listeners, and possibly
    another trigger style and allocation counter. *)
Definition wired (s s' : State) : Prop :=
  ∃ ls st n,
    s' = {| inputs := inputs s;
            this := set_eventListeners (eventListeners (this s) ++ ls) (this s);
            world := set_next n (set_style st (world s)) |}.

(** What holds of an instance on the server: nothing registered, nothing
    recorded, nothing pending. *)
Definition inert (s : State) : Prop :=
  attached (world s) = [] ∧ eventListeners (this s) = [] ∧ timers (world s) = [].

(** What holds of an instance after [ngOnDestroy]. *)
Definition torn_down (s : State) : Prop :=
  attached (world s) = [] ∧ timers (world s) = [] ∧ body (world s) = [].

Definition is_api_call (e : Event) : bool :=
  match e with EvShow | EvHide | EvToggle => true | _ => false end.



(** ** Shapes of the generated DOM *)

Definition panel_classes (s : State) : list string :=
  if truthy_str (cssModifier (inputs s))
  then ["floating-tooltip"; "floating-tooltip_" +:+ default "" (cssModifier (inputs s))]
  else ["floating-tooltip"].

(** The class names [createElement] gives the panel are all accepted by the
    class list. *)
Definition class_tokens_ok (s : State) : bool := forallb valid_token (panel_classes s).

Definition arrow_node (createArrow : bool) (id : nat) : list Node :=
  if createArrow then [Div id ["floating-tooltip__arrow"] [] []] else [].

(** ** Gesture suppression *)

Definition text_input (env : Env) : bool :=
  String.eqb (nodeName env) "INPUT" || String.eqb (nodeName env) "TEXTAREA".

Definition select_properties : list string :=
  ["userSelect"; "msUserSelect"; "webkitUserSelect"; "MozUserSelect"].

Definition long_press_is_show_gesture (env : Env) (s : State) : bool :=
  match trigger (inputs s) with
  | click => false
  | hover => negb (Helpers.supportsMouseEvents (navigator env))
  end.

(** ** Sample instances *)

Definition mouse_env : Env :=
  {| navigator := {| Helpers.isIOS := false; Helpers.isAndroid := false |};
     nodeName := "BUTTON"; draggable := false; envInjector := 0%nat; isServer := false;
     options := Tokens.DEFAULT_OPTIONS |}.

Definition touch_env : Env :=
  {| navigator := {| Helpers.isIOS := true; Helpers.isAndroid := false |};
     nodeName := "BUTTON"; draggable := false; envInjector := 0%nat; isServer := false;
     options := Tokens.DEFAULT_OPTIONS |}.

Definition draggable_env : Env :=
  {| navigator := {| Helpers.isIOS := false; Helpers.isAndroid := true |};
     nodeName := "INPUT"; draggable := true; envInjector := 0%nat; isServer := false;
     options := Tokens.DEFAULT_OPTIONS |}.

Definition server_env : Env :=
  {| navigator := {| Helpers.isIOS := false; Helpers.isAndroid := false |};
     nodeName := "BUTTON"; draggable := false; envInjector := 0%nat; isServer := true;
     options := Tokens.DEFAULT_OPTIONS |}.

(** An application that provides a negative arrow height. *)
Definition negative_height_env : Env :=
  {| navigator := {| Helpers.isIOS := false; Helpers.isAndroid := false |};
     nodeName := "BUTTON"; draggable := false; envInjector := 0%nat; isServer := false;
     options := Tokens.inject Tokens.FLOATING_UI_OPTIONS
                  (Tokens.provideFloatingUiOptions {["arrowHeight" := -4]}) |}.

Definition hover_inputs : Inputs :=
  {| content := ContentString "Hello"; trigger := hover; placement := None;
     showArrow := true; offset := Some 6; cssModifier := None;
     disabled := false; manual := false |}.

Definition click_inputs : Inputs :=
  {| content := ContentString "Hello"; trigger := click; placement := None;
     showArrow := true; offset := Some 6; cssModifier := None;
     disabled := false; manual := false |}.

Definition template_inputs : Inputs :=
  {| content := ContentTemplate {| tpl_roots := ["<span>"] |}; trigger := hover;
     placement := Some (top, None); showArrow := false; offset := None;
     cssModifier := Some "dark"; disabled := false; manual := false |}.



(** A modifier that is two words: the class name built from it holds a
    space. *)
Definition spaced_inputs : Inputs :=
  {| content := ContentString "Hello"; trigger := hover; placement := None;
     showArrow := true; offset := Some 6; cssModifier := Some "x y";
     disabled := false; manual := false |}.

Definition changed : option SimpleChange := Some {| firstChange := false |}.

(** * Vocabulary of the further properties *)

Definition clean_when_hidden (s : State) : Prop :=
  _isVisible (this s) = false →
  body (world s) = [] ∧ views (world s) = [] ∧ tracking (world s) = [].

Definition listener (event : string) (id : nat) (cb : Callback) : Listener :=
  {| l_event := event; l_handler := {| h_id := id; h_body := cb |};
     l_options := {| passive := true |} |}.

Definition added (env : Env) (s : State) : list Listener :=
  let n := next (world s) in
  match trigger (inputs s) with
  | click => [listener "click" n CbToggle]
  | hover =>
      [listener "focus" n CbShow; listener "blur" (S n) CbHide] ++
      (if Helpers.supportsMouseEvents (navigator env)
       then [listener "mouseenter" (S (S n)) CbShow;
             listener "mouseleave" (S (S (S n))) CbHide;
             listener "wheel" (S (S (S (S n)))) CbWheel]
       else [listener "touchstart" (S (S n)) CbTouchstart;
             listener "touchend" (S (S (S n))) CbTouchend;
             listener "touchcancel" (S (S (S n))) CbTouchend])
  end.

Definition gesture_callbacks : list (string * Callback) :=
  [("focus", CbShow); ("blur", CbHide); ("click", CbToggle);
   ("mouseenter", CbShow); ("mouseleave", CbHide); ("wheel", CbWheel);
   ("touchstart", CbTouchstart); ("touchend", CbTouchend); ("touchcancel", CbTouchend)].

Definition well_wired (l : Listener) : Prop :=
  In (l_event l, h_body (l_handler l)) gesture_callbacks
  ∧ l_options l = {| passive := true |}.

Definition hide_gestures : list string := ["blur"; "mouseleave"; "touchend"; "touchcancel"].

Definition keeps_manual (e : Event) : bool :=
  match e with EvChanges new _ => manual new | _ => true end.

(** The children of the content element, by kind of content: the root nodes
    of the template's view, or one text node, or nothing when the text is
    empty; [v] is the identity of the embedded view of a template. *)
Definition content_children (c : TooltipContent) (v : nat) : list Node :=
  match c with
  | ContentTemplate tpl => map (ViewRoot v) (tpl_roots tpl)
  | c => if String.eqb (String_of c) "" then [] else [TextNode (String_of c)]
  end.

(** The numbers whose string conversion is their decimal numeral: the
    integers below 2^53 in absolute value, which a double holds exactly. *)
Definition exact_number (c : TooltipContent) : bool :=
  match c with ContentNumber n => Z.abs n <? 2 ^ 53 | _ => true end.

Definition is_template (c : TooltipContent) : bool :=
  match c with ContentTemplate _ => true | _ => false end.

(** The middleware list of [render], for an arrow element [a]. *)
Definition pipeline (env : Env) (i : Inputs) (a : option nat) : list Middleware :=
  (if truthy_num (offset i) then [MOffset (default 0 (offset i))] else [])
  ++ [MFlip; MShift]
  ++ (if showArrow i then [MArrow a (options env !! "arrowPadding")] else []).

Definition show_gestures : list string := ["focus"; "mouseenter"].

(** * Properties *)

(** ** Global options *)

Section Options.

Import Tokens.

Lemma spread_lookup (a b : gmap string Z) (k : string) :
  spread a b !! k = match b !! k with Some v => Some v | None => a !! k end.
Proof.
  unfold spread. rewrite lookup_union.
  destruct (b !! k), (a !! k); reflexivity.
Qed.

Lemma inject_provided (o : gmap string Z) :
  inject FLOATING_UI_OPTIONS (provideFloatingUiOptions o) = spread DEFAULT_OPTIONS o.
Proof.
  change (inject FLOATING_UI_OPTIONS (provideFloatingUiOptions o))
    with (spread (spread ∅ DEFAULT_OPTIONS) o).
  apply map_eq. intros k. rewrite !spread_lookup, lookup_empty.
  destruct (o !! k), (DEFAULT_OPTIONS !! k); reflexivity.
Qed.

(** C4: the configuration injected after [provideFloatingUiOptions o] holds,
    at every key, the value of [o] where [o] has the key and the default
    otherwise; the defaults are arrowHeight 4, arrowPadding 5 and
    longPressDelay 500; the override [{arrowHeight: 8}] leaves the other two
    at their defaults; and with no provider at all, or with an empty override,
    the injected configuration is exactly the defaults. *)
Theorem provideFloatingUiOptions_merges (o : gmap string Z) :
  let cfg := inject FLOATING_UI_OPTIONS (provideFloatingUiOptions o) in
  (∀ k, cfg !! k = match o !! k with Some v => Some v | None => DEFAULT_OPTIONS !! k end)
  ∧ map_to_list DEFAULT_OPTIONS
      = [("arrowHeight", 4); ("arrowPadding", 5); ("longPressDelay", 500)]
  ∧ (let cfg8 := inject FLOATING_UI_OPTIONS (provideFloatingUiOptions {["arrowHeight" := 8]}) in
     cfg8 !! "arrowHeight" = Some 8 ∧ cfg8 !! "arrowPadding" = Some 5
     ∧ cfg8 !! "longPressDelay" = Some 500)
  ∧ inject FLOATING_UI_OPTIONS [] = DEFAULT_OPTIONS
  ∧ inject FLOATING_UI_OPTIONS (provideFloatingUiOptions ∅) = DEFAULT_OPTIONS.
Proof.
  cbn zeta. split; [| split; [| split; [| split]]].
  - intros k. rewrite inject_provided. apply spread_lookup.
  - vm_compute. reflexivity.
  - rewrite inject_provided, !spread_lookup. vm_compute. auto.
  - reflexivity.
  - rewrite inject_provided. apply map_eq. intros k.
    rewrite spread_lookup, lookup_empty. reflexivity.
Qed.

End Options.

(** ** Arrow placement *)

Lemma object_assign_lookup (source target : gmap string string) (k : string) :
  (source ∪ target) !! k = match source !! k with Some v => Some v | None => target !! k end.
Proof.
  rewrite lookup_union. destruct (source !! k), (target !! k); reflexivity.
Qed.

Lemma split_head_placement (p : Placement) :
  split_head "-" (placement_string p) = side_string (fst p).
Proof. destruct p as [[] [[]|]]; reflexivity. Qed.

Lemma arrowSideTable_opposite (s : Side) :
  arrowSideTable !! side_string s = Some (side_string (opposite_side s)).
Proof. destruct s; reflexivity. Qed.

Lemma setArrowPosition_side (env : Env) (st : gmap string string) (s : Side) (a : ArrowData) :
  setArrowPosition env st (side_string s) a !! side_string (opposite_side s)
  = Some ("-" +:+ interpolate (options env !! "arrowHeight") +:+ "px").
Proof.
  unfold setArrowPosition. rewrite object_assign_lookup, arrowSideTable_opposite.
  cbn [default]. rewrite lookup_insert_eq. reflexivity.
Qed.

Lemma setArrowPosition_cross (env : Env) (st : gmap string string) (s : Side) (a : ArrowData) :
  setArrowPosition env st (side_string s) a !! fst (cross_axis s a)
  = Some (px_or_empty (snd (cross_axis s a))).
Proof.
  unfold setArrowPosition. rewrite object_assign_lookup, arrowSideTable_opposite.
  destruct s; cbn [default opposite_side side_string cross_axis fst snd];
    simplify_map_eq; reflexivity.
Qed.

Lemma pretty_opp (h : Z) : 0 < h → pretty (- h) = "-" +:+ pretty h.
Proof. intros Hh. destruct h as [| p | p]; [lia | reflexivity | lia]. Qed.

Lemma minus_height_px (h : Z) :
  0 <= h → "-" +:+ interpolate (Some h) +:+ "px" = if h =? 0 then "-0px" else px (- h).
Proof.
  intros Hh. destruct (Z.eqb_spec h 0) as [-> | Hne]; [reflexivity |].
  unfold px, interpolate. rewrite pretty_opp by lia.
  generalize (pretty h) as t. intros t. reflexivity.
Qed.

(** C5, amended: for each of the twelve placements the engine can return,
    the arrow's style gets its cross-axis offset from the middleware ([left]
    from [x] for top and bottom placements, [top] from [y] for left and right
    ones), and, when the configured [arrowHeight] is a non-negative number
    [h], the property named by the opposite of the placement's side is set to
    the length minus [h] pixels (written [-0px] when [h] is 0); with the
    default options that is [-4px]. *)
Theorem arrow_offset_side_all_placements (env : Env) (tooltipStyle arrowStyle : gmap string string)
    (x y : Z) (a : ArrowData) (h : Z) :
  options env !! "arrowHeight" = Some h → 0 <= h →
  Forall (λ p : Placement,
    ∃ arrowStyle',
      snd (setTooltipPosition env tooltipStyle (Some arrowStyle)
             {| cp_x := x; cp_y := y; cp_placement := p; cp_arrow := a |}) = Some arrowStyle'
      ∧ arrowStyle' !! side_string (opposite_side (fst p))
        = Some (if h =? 0 then "-0px" else px (- h))
      ∧ arrowStyle' !! fst (cross_axis (fst p) a) = Some (px_or_empty (snd (cross_axis (fst p) a)))
      ∧ (options env = Tokens.DEFAULT_OPTIONS →
         arrowStyle' !! side_string (opposite_side (fst p)) = Some "-4px"))
    placements
  ∧ length placements = 12%nat ∧ ∀ p : Placement, p ∈ placements.
Proof.
  intros Hh Hpos. split; [| split; [reflexivity |]].
  - apply Forall_forall. intros p _. eexists. split.
    + cbn [setTooltipPosition snd]. rewrite split_head_placement. reflexivity.
    + split; [| split; [apply setArrowPosition_cross |]].
      * rewrite setArrowPosition_side, Hh. f_equal. apply minus_height_px, Hpos.
      * intros Hopt. rewrite setArrowPosition_side, Hopt. reflexivity.
  - intros [[] [[]|]]; unfold placements; repeat constructor.
Qed.

Lemma arrow_offset_side_all_placements_witness :
  options touch_env = Tokens.DEFAULT_OPTIONS
  ∧ ∃ arrowStyle',
      snd (setTooltipPosition touch_env ∅ (Some ∅)
             {| cp_x := 10; cp_y := 20; cp_placement := (top, Some start);
                cp_arrow := {| arrow_x := Some 7; arrow_y := None |} |}) = Some arrowStyle'
      ∧ arrowStyle' !! "bottom" = Some (px (- 4))
      ∧ arrowStyle' !! "bottom" = Some "-4px" ∧ arrowStyle' !! "left" = Some "7px".
Proof.
  split; [reflexivity |].
  assert (0 <= 4) as Hpos by discriminate.
  pose proof (arrow_offset_side_all_placements touch_env ∅ ∅ 10 20
                {| arrow_x := Some 7; arrow_y := None |} 4 eq_refl Hpos) as [H _].
  rewrite Forall_forall in H.
  destruct (H (top, Some start)) as (st & Hst & Hside & Hcross & Hdef).
  { unfold placements. repeat constructor. }
  exists st. split; [exact Hst | split; [exact Hside | split; [apply Hdef; reflexivity | exact Hcross]]].
Defined.

(** With a negative [arrowHeight], here -4, what is assigned to the property
    of the opposite side is the text [--4px], which is not the length minus
    [arrowHeight] pixels ([4px]), nor any length. *)
Lemma negative_arrow_height_is_no_length :
  options negative_height_env !! "arrowHeight" = Some (- 4)
  ∧ ∃ arrowStyle',
      snd (setTooltipPosition negative_height_env ∅ (Some ∅)
             {| cp_x := 10; cp_y := 20; cp_placement := (top, None);
                cp_arrow := {| arrow_x := Some 7; arrow_y := None |} |}) = Some arrowStyle'
      ∧ arrowStyle' !! "bottom" = Some "--4px"
      ∧ arrowStyle' !! "bottom" ≠ Some (px (- - 4))
      ∧ ∀ n : Z, arrowStyle' !! "bottom" ≠ Some (px n).
Proof.
  split; [vm_compute; reflexivity |].
  exists (setArrowPosition negative_height_env ∅ "top" {| arrow_x := Some 7; arrow_y := None |}).
  split; [reflexivity |].
  assert (setArrowPosition negative_height_env ∅ "top" {| arrow_x := Some 7; arrow_y := None |}
          !! "bottom" = Some "--4px") as Hb by (vm_compute; reflexivity).
  split; [exact Hb | split].
  - rewrite Hb. vm_compute. discriminate.
  - assert (∀ q t, pretty (N.pos q) ≠ "-" +:+ t) as Hdash.
    { intros q t. unfold pretty, pretty_N. rewrite decide_False by discriminate.
      apply pretty_N_go_ne_dash. discriminate. }
    assert (∀ q, "-4px" ≠ pretty (N.pos q) +:+ "px") as Hdigits.
    { intros q Heq. destruct (pretty (N.pos q)) as [| c t] eqn:E; [discriminate Heq |].
      injection Heq as <- _. exact (Hdash q t E). }
    intros n. rewrite Hb. unfold px. intros Heq. injection Heq as Heq.
    destruct n as [| q | q].
    + vm_compute in Heq. discriminate Heq.
    + change (pretty (Z.pos q)) with (pretty (N.pos q)) in Heq.
      destruct (pretty (N.pos q)) as [| c t] eqn:E; [discriminate Heq |].
      injection Heq as <- _. exact (Hdash q t E).
    + change (pretty (Z.neg q)) with ("-" +:+ pretty (N.pos q)) in Heq.
      injection Heq as Heq. exact (Hdigits q Heq).
Qed.

(** ** Teardown and rendering *)

Lemma owns_released {A} (same : nat → A → bool) (ref : option nat) (l : list A) :
  owns same ref l →
  match ref with Some r => List.filter (λ x, negb (same r x)) l | None => l end = [].
Proof.
  intros [-> | (x & r & -> & Hx & ->)].
  - destruct ref; reflexivity.
  - simpl. rewrite Hx. reflexivity.
Qed.

Lemma destroy_unfold (s : State) :
  destroy s =
  {| inputs := inputs s; this := this s;
     world :=
       {| style := style (world s); attached := attached (world s);
          body := match tooltipElRef (this s) with
                  | Some r => List.filter (λ x, negb (node_is r x)) (body (world s))
                  | None => body (world s) end;
          views := match embdedViewRef (this s) with
                   | Some r => List.filter (λ x, negb (view_is r x)) (views (world s))
                   | None => views (world s) end;
          components := match componentRef (this s) with
                   | Some r => List.filter (λ x, negb (Nat.eqb (c_id x) r)) (components (world s))
                   | None => components (world s) end;
          appViews := match componentRef (this s) with
                   | Some r => List.filter (λ x, negb (Nat.eqb x r)) (appViews (world s))
                   | None => appViews (world s) end;
          tracking := match cleanupFn (this s) with
                   | Some r => List.filter (λ x, negb (tracker_is r x)) (tracking (world s))
                   | None => tracking (world s) end;
          timers := match touchstartTimeout (this s) with
                   | Some r => List.filter (λ x, negb (timer_is r x)) (timers (world s))
                   | None => timers (world s) end;
          now := now (world s); next := next (world s) |} |}.
Proof.
  destruct s as [i [vis el ev co cl ls tt] w]. unfold destroy, clearTimeout. cbn.
  destruct ev, co, el, cl, tt; destruct w; reflexivity.
Qed.

Lemma destroy_released (s : State) :
  Inv s →
  destroy s =
  {| inputs := inputs s; this := this s;
     world :=
       {| style := style (world s); attached := attached (world s);
          body := []; views := []; components := []; appViews := [];
          tracking := []; timers := [];
          now := now (world s); next := next (world s) |} |}.
Proof.
  intros [Hb Hv Htr Hti _ (Hc & Ha & Hr) _]. rewrite destroy_unfold.
  rewrite (owns_released _ _ _ Hb), (owns_released _ _ _ Hv),
    (owns_released _ _ _ Htr), (owns_released _ _ _ Hti), Hr, Hc, Ha.
  reflexivity.
Qed.

Lemma filter_filter_same {A} (p : A → bool) (l : list A) :
  List.filter p (List.filter p l) = List.filter p l.
Proof.
  induction l as [| x l IH]; [reflexivity |]. simpl.
  destruct (p x) eqn:E; simpl; rewrite ?E, IH; reflexivity.
Qed.

Lemma destroy_idempotent (s : State) : destroy (destroy s) = destroy s.
Proof.
  rewrite (destroy_unfold (destroy s)). rewrite !destroy_unfold. cbn.
  destruct (tooltipElRef (this s)), (embdedViewRef (this s)), (componentRef (this s)),
    (cleanupFn (this s)), (touchstartTimeout (this s));
    rewrite ?filter_filter_same; reflexivity.
Qed.

Lemma valid_token_modifier (x : string) :
  valid_token ("floating-tooltip_" +:+ x) = negb (has_whitespace x).
Proof. reflexivity. Qed.

Lemma class_tokens_ok_modifier (s : State) :
  class_tokens_ok s
  = match cssModifier (inputs s) with
    | Some x => negb (has_whitespace x)
    | None => true
    end.
Proof.
  unfold class_tokens_ok, panel_classes, truthy_str.
  destruct (cssModifier (inputs s)) as [x |]; [| reflexivity].
  destruct x as [| c x]; [reflexivity |].
  cbn [String.eqb negb default forallb]. rewrite valid_token_modifier.
  change (valid_token "floating-tooltip") with true. cbn [andb]. apply andb_true_r.
Qed.

Ltac mounted_case :=
  do 7 eexists; (split; [reflexivity |]);
  right; (split; [reflexivity |]); (split; [reflexivity |]); do 3 eexists;
  do 4 (split; [reflexivity |]);
  (split; [cbn; apply Nat.eqb_refl |]); (split; [cbn; apply Nat.eqb_refl |]);
  first [ left; split; reflexivity
        | right; do 2 eexists; split; [reflexivity |]; split;
          [reflexivity | cbn; apply Nat.eqb_refl] ].

(** What [render] leaves: either an exception at the first class name the
    class list refuses, with nothing mounted, or one panel and one position
    subscription. *)
Lemma render_effect (env : Env) (s : State) :
  ∃ ps aus te cf vs ev n',
    snd (render env s) =
    {| inputs := inputs s;
       this :=
         {| _isVisible := _isVisible (this s); tooltipElRef := te;
            embdedViewRef := ev; componentRef := componentRef (this s);
            cleanupFn := cf; eventListeners := eventListeners (this s);
            touchstartTimeout := touchstartTimeout (this s) |};
       world :=
         {| style := style (world s); attached := attached (world s);
            body := body (world s) ++ ps; views := vs;
            components := components (world s); appViews := appViews (world s);
            tracking := tracking (world s) ++ aus; timers := timers (world s);
            now := now (world s); next := n' |} |}
    ∧ ((class_tokens_ok s = false ∧ fst (render env s) = None
        ∧ ps = [] ∧ aus = [] ∧ te = tooltipElRef (this s) ∧ cf = cleanupFn (this s)
        ∧ vs = views (world s) ∧ ev = embdedViewRef (this s))
       ∨ (class_tokens_ok s = true ∧ fst (render env s) = Some ()
          ∧ ∃ panel au sub,
              ps = [panel] ∧ aus = [au] ∧ te = Some (next (world s)) ∧ cf = Some sub
              ∧ node_is (next (world s)) panel = true
              ∧ tracker_is sub au = true
              ∧ ((vs = views (world s) ∧ ev = embdedViewRef (this s))
                 ∨ ∃ v r, vs = views (world s) ++ [v] ∧ ev = Some r ∧ view_is r v = true))).
Proof.
  rewrite class_tokens_ok_modifier.
  destruct s as [[c tr pl sa off css dis man] [vis el evr co cl ls tt] w].
  unfold render, createElement, createEl, fresh, and_then.
  destruct css as [x |].
  - destruct x as [| ch x].
    + cbn. destruct c, sa, (truthy_num off); cbn; mounted_case.
    + assert (String.eqb (String ch x) "" = false) as Hm by reflexivity.
      revert Hm. generalize (String ch x) as m. intros m Hm.
      cbn. rewrite Hm. cbn. rewrite valid_token_modifier, andb_true_r.
      destruct (has_whitespace m); cbn.
      * exists [], [], el, cl, (views w), evr, (S (next w)).
        split; [destruct w; cbn; rewrite !app_nil_r; reflexivity |].
        left. repeat split; reflexivity.
      * destruct c, sa, (truthy_num off); cbn; mounted_case.
  - cbn. destruct c, sa, (truthy_num off); cbn; mounted_case.
Qed.

Lemma owns_filter {A} (same : nat → A → bool) (ref : option nat) (p : A → bool) (l : list A) :
  owns same ref l → owns same ref (List.filter p l).
Proof.
  intros [-> | (x & r & -> & Hx & ->)]; [left; reflexivity |].
  simpl. destruct (p x); [right; eauto | left; reflexivity].
Qed.

Lemma Forall_filter_keep {A} (P : A → Prop) (p : A → bool) (l : list A) :
  Forall P l → Forall P (List.filter p l).
Proof.
  induction 1 as [| x l Hx _ IH]; simpl; [constructor |].
  destruct (p x); [constructor |]; assumption.
Qed.

Lemma Inv_initial (i : Inputs) : Inv (initial i).
Proof.
  constructor; cbn; try (left; reflexivity); auto.
Qed.

Lemma Inv_on_inputs (f : Inputs → Inputs) (s : State) : Inv s → Inv (on_inputs f s).
Proof. intros []; constructor; assumption. Qed.

Lemma Inv_set_isVisible (v : bool) (s : State) : Inv s → Inv (on_this (set_isVisible v) s).
Proof. intros []; constructor; assumption. Qed.

Lemma Inv_set_now (n : nat) (s : State) : Inv s → Inv (on_world (set_now n) s).
Proof. intros []; constructor; assumption. Qed.

Lemma Inv_clearTimeout (t : option nat) (s : State) : Inv s → Inv (clearTimeout t s).
Proof.
  destruct t as [id |]; [| trivial]. intros []; constructor; cbn; try assumption.
  - apply owns_filter. assumption.
  - apply Forall_filter_keep. assumption.
Qed.

Lemma Inv_destroy (s : State) : Inv s → Inv (destroy s).
Proof.
  intros H. rewrite (destroy_released s H). destruct H as [? ? ? ? ? (? & ? & ?) ?].
  constructor; cbn; try (left; reflexivity); auto.
Qed.

Lemma Inv_render (env : Env) (s : State) :
  Inv s → body (world s) = [] → views (world s) = [] → tracking (world s) = [] →
  Inv (snd (render env s)).
Proof.
  intros [Hbo Hvi Htk Hti Hcb Hco Hat] Hb Hv Htr.
  destruct (render_effect env s) as (ps & aus & te & cf & vs & ev & n' & -> & Hcase).
  destruct Hcase as [(_ & _ & -> & -> & -> & -> & -> & ->)
                    | (_ & _ & panel & au & sub & -> & -> & -> & -> & Hp & Hau & Hvs)];
    constructor; cbn; rewrite ?app_nil_r; try assumption.
  - right. rewrite Hb. eauto.
  - destruct Hvs as [[-> ->] | (v & r & -> & -> & Hr)].
    + assumption.
    + right. rewrite Hv. eauto.
  - right. rewrite Htr. eauto.
Qed.

Lemma Inv_show (env : Env) (s : State) : Inv s → Inv (show env s).
Proof.
  intros H. unfold show. destruct (_isVisible (this s)); [assumption |].
  pose proof (Inv_set_isVisible true s H) as H1.
  pose proof (Inv_destroy _ H1) as H2. revert H2.
  rewrite (destroy_released _ H1). intros H2.
  apply Inv_render; [assumption | reflexivity ..].
Qed.

Lemma Inv_hide (s : State) : Inv s → Inv (hide s).
Proof.
  intros H. unfold hide. destruct (_isVisible (this s)); cbn; [| assumption].
  apply Inv_destroy, Inv_set_isVisible, H.
Qed.

Lemma Inv_toggle (env : Env) (s : State) : Inv s → Inv (toggle env s).
Proof.
  intros H. unfold toggle. destruct (_isVisible (this s)); [apply Inv_hide | apply Inv_show]; exact H.
Qed.

Lemma wired_refl (s : State) : wired s s.
Proof.
  exists [], (style (world s)), (next (world s)).
  destruct s as [i [] []]. cbn. rewrite app_nil_r. reflexivity.
Qed.

Lemma wired_trans (s1 s2 s3 : State) : wired s1 s2 → wired s2 s3 → wired s1 s3.
Proof.
  intros (ls & st & n & ->) (ls' & st' & n' & ->).
  exists (ls ++ ls'), st', n'. cbn. rewrite app_assoc. reflexivity.
Qed.

Lemma wired_fresh (s : State) : wired s (snd (fresh s)).
Proof.
  exists [], (style (world s)), (S (next (world s))).
  destruct s as [i [] []]. cbn. rewrite app_nil_r. reflexivity.
Qed.

Lemma wired_addListener (event : string) (h : Handler) (s : State) :
  wired s (addListener event h s).
Proof.
  eexists [_], (style (world s)), (next (world s)).
  destruct s as [i [] []]. reflexivity.
Qed.

Lemma wired_style (f : World → gmap string string) (s : State) :
  wired s (on_world (λ w, set_style (f w) w) s).
Proof.
  exists [], (f (world s)), (next (world s)).
  destruct s as [i [] []]. cbn. rewrite app_nil_r. reflexivity.
Qed.

Lemma wired_disableNativeGestures (env : Env) (s : State) :
  wired s (disableNativeGestures env s).
Proof.
  unfold disableNativeGestures. cbv zeta.
  repeat (eapply wired_trans; [| apply wired_style]).
  destruct (negb (String.eqb (nodeName env) "INPUT") && negb (String.eqb (nodeName env) "TEXTAREA")),
    (negb (draggable env));
    repeat (eapply wired_trans; [| apply wired_style]); apply wired_refl.
Qed.

Ltac wired_step :=
  first [ apply wired_refl
        | eapply wired_trans; [| apply wired_addListener]
        | eapply wired_trans; [| apply wired_fresh]
        | eapply wired_trans; [| apply wired_disableNativeGestures] ].

Lemma wired_setupClickEvents (s : State) : wired s (setupClickEvents s).
Proof. unfold setupClickEvents, closure. cbv beta iota zeta. repeat wired_step. Qed.

Lemma wired_setupFocusAndBlurEvents (s : State) : wired s (setupFocusAndBlurEvents s).
Proof. unfold setupFocusAndBlurEvents, closure. cbv beta iota zeta. repeat wired_step. Qed.

Lemma wired_setupMouseEvents (s : State) : wired s (setupMouseEvents s).
Proof. unfold setupMouseEvents, closure. cbv beta iota zeta. repeat wired_step. Qed.

Lemma wired_setupTouchEvents (env : Env) (s : State) : wired s (setupTouchEvents env s).
Proof. unfold setupTouchEvents, closure. cbv beta iota zeta. repeat wired_step. Qed.

Lemma setupListeners_effect (env : Env) (s : State) :
  ∃ ls st n',
    setupListeners env s =
    {| inputs := inputs s;
       this := set_eventListeners (eventListeners (this s) ++ ls) (this s);
       world :=
         {| style := st;
            attached := fold_left addEventListener (eventListeners (this s) ++ ls)
                          (attached (world s));
            body := body (world s); views := views (world s);
            components := components (world s); appViews := appViews (world s);
            tracking := tracking (world s); timers := timers (world s);
            now := now (world s); next := n' |} |}.
Proof.
  unfold setupListeners.
  match goal with |- context [on_world _ ?x] => assert (wired s x) as (ls & st & n & ->) end.
  { destruct (trigger (inputs s)); [apply wired_setupClickEvents |].
    eapply wired_trans; [apply wired_setupFocusAndBlurEvents |].
    destruct (Helpers.supportsMouseEvents (navigator env));
      [apply wired_setupMouseEvents | apply wired_setupTouchEvents]. }
  exists ls, st, n. reflexivity.
Qed.

Lemma In_fold_addEventListener (ls att : list Listener) (l : Listener) :
  In l (fold_left addEventListener ls att) → In l att ∨ In l ls.
Proof.
  revert att. induction ls as [| x ls IH]; cbn; intros att H; [left; exact H |].
  apply IH in H as [H | H]; [| right; right; exact H].
  unfold addEventListener in H. destruct (existsb (same_registration x) att).
  - left. exact H.
  - apply in_app_or in H as [H | [-> | []]]; [left; exact H | right; left; reflexivity].
Qed.

Lemma In_fold_removeEventListener (ls att : list Listener) (a : Listener) :
  In a (fold_left removeEventListener ls att) →
  In a att ∧ ∀ l, In l ls → same_registration l a = false.
Proof.
  revert att. induction ls as [| x ls IH]; cbn; intros att H.
  - split; [exact H | intros l []].
  - apply IH in H as [H Hls]. unfold removeEventListener in H.
    apply filter_In in H as [H Hx]. split; [exact H |].
    intros l [<- | Hl]; [| apply Hls, Hl].
    destruct (same_registration x a); [discriminate | reflexivity].
Qed.

Lemma same_registration_refl (l : Listener) : same_registration l l = true.
Proof.
  unfold same_registration. rewrite String.eqb_refl, Nat.eqb_refl. reflexivity.
Qed.

Lemma removeListeners_detaches (s : State) :
  (∀ l, In l (attached (world s)) → In l (eventListeners (this s))) →
  attached (world (removeListeners s)) = [].
Proof.
  intros Hsub. cbn.
  destruct (fold_left removeEventListener (eventListeners (this s)) (attached (world s)))
    as [| a rest] eqn:E; [reflexivity |].
  assert (In a (a :: rest)) as Ha by (left; reflexivity).
  rewrite <- E in Ha. apply In_fold_removeEventListener in Ha as [Ha Hno].
  specialize (Hno a (Hsub a Ha)). rewrite same_registration_refl in Hno. discriminate.
Qed.

Lemma Inv_setupListeners (env : Env) (s : State) : Inv s → Inv (setupListeners env s).
Proof.
  intros [? ? ? ? ? ? Hat].
  destruct (setupListeners_effect env s) as (ls & st & n' & ->).
  constructor; cbn; try assumption.
  intros l Hl. apply In_fold_addEventListener in Hl as [Hl | Hl]; [| exact Hl].
  apply in_or_app. left. apply Hat, Hl.
Qed.

Lemma Inv_removeListeners (s : State) : Inv s → Inv (removeListeners s).
Proof.
  intros [? ? ? ? ? ? Hat]. constructor; cbn; try assumption.
  intros l Hl. apply In_fold_removeEventListener in Hl as [Hl _]. apply Hat, Hl.
Qed.

Lemma Inv_run_callback (env : Env) (cb : Callback) (u : bool) (s : State) :
  Inv s → Inv (run_callback env cb u s).
Proof.
  intros H. destruct cb; cbn.
  - apply Inv_show, H.
  - apply Inv_hide, H.
  - apply Inv_toggle, H.
  - destruct (_isVisible (this s)); [destruct u; cbn |]; try assumption. apply Inv_hide, H.
  - pose proof H as [_ _ _ Hti _ _ _]. apply owns_released in Hti.
    pose proof (Inv_clearTimeout (touchstartTimeout (this s)) s H) as [? ? ? _ _ ? ?].
    assert (timers (world (clearTimeout (touchstartTimeout (this s)) s)) = []) as Hnil.
    { destruct (touchstartTimeout (this s)); exact Hti. }
    unfold setTimeout, fresh. cbn. constructor; cbn; try assumption.
    + right. rewrite Hnil. do 2 eexists. split; [reflexivity |]. split; [| reflexivity].
      cbn. apply Nat.eqb_refl.
    + rewrite Hnil. repeat constructor.
  - apply Inv_hide, Inv_clearTimeout, H.
Qed.

Lemma Inv_dispatch (env : Env) (type : string) (u : bool) (s : State) :
  Inv s → Inv (dispatch env type u s).
Proof.
  unfold dispatch. generalize (attached (world s)) as ls. intros ls. revert s.
  induction ls as [| l ls IH]; cbn; intros s H; [exact H |].
  apply IH. destruct (String.eqb (l_event l) type); [apply Inv_run_callback |]; exact H.
Qed.

Lemma Inv_run_timers (env : Env) (fuel : nat) (s : State) :
  Inv s → Inv (run_timers env fuel s).
Proof.
  revert s. induction fuel as [| n IH]; cbn; intros s H; [exact H |].
  destruct (find (due (world s)) (timers (world s))) as [t |]; [| exact H].
  apply IH, Inv_run_callback, (Inv_clearTimeout (Some (t_id t))), H.
Qed.

Lemma Inv_advance (env : Env) (dt : nat) (s : State) : Inv s → Inv (advance env dt s).
Proof.
  intros H. unfold advance. apply Inv_run_timers.
  destruct H; constructor; assumption.
Qed.

Lemma Inv_step (env : Env) (s : State) (e : Event) : Inv s → Inv (step env s e).
Proof.
  intros H. destruct e; cbn.
  - unfold ngAfterViewInit. destruct (_ || _); [exact H | apply Inv_setupListeners, H].
  - pose proof (Inv_on_inputs (λ _, new) s H) as H'. unfold ngOnChanges.
    destruct disabledChange as [c |]; [| exact H'].
    destruct (negb (firstChange c)); [| exact H'].
    destruct (_ || _); [exact H' |].
    destruct (disabled _); [| apply Inv_setupListeners, H'].
    apply Inv_removeListeners. destruct (_isVisible _); [apply Inv_destroy |]; exact H'.
  - apply Inv_removeListeners, Inv_destroy, H.
  - apply Inv_show, H.
  - apply Inv_hide, H.
  - apply Inv_toggle, H.
  - apply Inv_dispatch, H.
  - apply Inv_advance, H.
Qed.

Lemma Inv_run (env : Env) (es : list Event) (s : State) : Inv s → Inv (run env s es).
Proof.
  revert s. induction es as [| e es IH]; cbn; intros s H; [exact H |].
  apply IH, Inv_step, H.
Qed.

(** ** One panel per instance *)

Lemma Inv_reachable (env : Env) (i : Inputs) (es : list Event) :
  Inv (run env (initial i) es).
Proof. apply Inv_run, Inv_initial. Qed.

Lemma owns_length {A} (same : nat → A → bool) (ref : option nat) (l : list A) :
  owns same ref l → (length l ≤ 1)%nat.
Proof. intros [-> | (x & r & _ & _ & ->)]; cbn; lia. Qed.

Lemma show_visible (env : Env) (s : State) : _isVisible (this s) = true → show env s = s.
Proof. intros H. unfold show. rewrite H. reflexivity. Qed.

Lemma hide_hidden (s : State) : _isVisible (this s) = false → hide s = s.
Proof. intros H. unfold hide. rewrite H. reflexivity. Qed.

Lemma show_is_visible (env : Env) (s : State) : _isVisible (this (show env s)) = true.
Proof.
  unfold show. destruct (_isVisible (this s)) eqn:E; [exact E |].
  match goal with |- context [render env ?x] =>
    destruct (render_effect env x) as (ps & aus & te & cf & vs & ev & n' & -> & _) end.
  cbn. rewrite destroy_unfold. reflexivity.
Qed.

Lemma hide_is_hidden (s : State) : _isVisible (this (hide s)) = false.
Proof.
  unfold hide. destruct (_isVisible (this s)) eqn:E; cbn; [| exact E].
  rewrite destroy_unfold. reflexivity.
Qed.

Lemma show_hidden (env : Env) (s : State) :
  Inv s → _isVisible (this s) = false →
  length (panels (show env s)) = (if class_tokens_ok s then 1 else 0)%nat
  ∧ _isVisible (this (show env s)) = true
  ∧ show_throws env s = negb (class_tokens_ok s).
Proof.
  intros H Hv. unfold show, show_throws. rewrite Hv.
  rewrite (destroy_released _ (Inv_set_isVisible true s H)).
  match goal with |- context [render env ?x] =>
    destruct (render_effect env x) as (ps & aus & te & cf & vs & ev & n' & Heq & Hcase);
    change (class_tokens_ok x) with (class_tokens_ok s) in Hcase end.
  rewrite Heq.
  destruct Hcase as [(-> & -> & -> & _) | (-> & -> & panel & au & sub & -> & _)];
    repeat split.
Qed.

Lemma show_show (env : Env) (s : State) : show env (show env s) = show env s.
Proof. apply show_visible, show_is_visible. Qed.

(** C1, amended: in every state an instance can reach, the document holds at
    most one panel of the instance; [show] on a visible instance and [hide]
    on a hidden one return the state unchanged (visibility, panel and
    everything else); a second [show] right after a first changes nothing;
    and on a hidden instance whose panel class names are valid class tokens,
    one [show] returns normally and mounts exactly one panel, so two
    consecutive calls leave exactly one. *)
Theorem at_most_one_panel (env : Env) (i : Inputs) (es : list Event) :
  let s := run env (initial i) es in
  (length (panels s) ≤ 1)%nat
  ∧ (_isVisible (this s) = true → show env s = s)
  ∧ (_isVisible (this s) = false → hide s = s)
  ∧ show env (show env s) = show env s
  ∧ (_isVisible (this s) = false → class_tokens_ok s = true →
     show_throws env s = false
     ∧ length (panels (show env s)) = 1%nat
     ∧ length (panels (show env (show env s))) = 1%nat).
Proof.
  intros s. pose proof (Inv_reachable env i es) as H. fold s in H.
  split; [| split; [| split; [| split]]].
  - destruct H as [Hb _ _ _ _ _ _]. exact (owns_length _ _ _ Hb).
  - apply show_visible.
  - apply hide_hidden.
  - apply show_show.
  - intros Hv Hok. destruct (show_hidden env s H Hv) as (H1 & _ & Hthrows).
    rewrite Hok in H1, Hthrows. rewrite show_show. auto.
Qed.

Lemma at_most_one_panel_witness :
  show mouse_env (run mouse_env (initial hover_inputs) [EvAfterViewInit; EvShow])
  = run mouse_env (initial hover_inputs) [EvAfterViewInit; EvShow]
  ∧ hide (run mouse_env (initial hover_inputs) [EvAfterViewInit])
    = run mouse_env (initial hover_inputs) [EvAfterViewInit]
  ∧ length (panels (show mouse_env (show mouse_env
              (run mouse_env (initial template_inputs) [EvAfterViewInit])))) = 1%nat.
Proof.
  pose proof (at_most_one_panel mouse_env hover_inputs [EvAfterViewInit; EvShow])
    as (_ & Hshow & _).
  pose proof (at_most_one_panel mouse_env hover_inputs [EvAfterViewInit])
    as (_ & _ & Hhide & _).
  pose proof (at_most_one_panel mouse_env template_inputs [EvAfterViewInit])
    as (_ & _ & _ & _ & Htwice).
  assert (_isVisible (this (run mouse_env (initial hover_inputs) [EvAfterViewInit; EvShow]))
          = true) as Hv by (vm_compute; reflexivity).
  assert (_isVisible (this (run mouse_env (initial hover_inputs) [EvAfterViewInit]))
          = false) as Hh by (vm_compute; reflexivity).
  assert (_isVisible (this (run mouse_env (initial template_inputs) [EvAfterViewInit]))
          = false) as Ht by (vm_compute; reflexivity).
  assert (class_tokens_ok (run mouse_env (initial template_inputs) [EvAfterViewInit])
          = true) as Hok by (vm_compute; reflexivity).
  split; [exact (Hshow Hv) | split; [exact (Hhide Hh) |]].
  exact (proj2 (proj2 (Htwice Ht Hok))).
Defined.

(** Two consecutive [show] calls can leave no panel at all: on an instance
    that was disabled while visible, whose flag is still set, both calls
    return at the guard; and on a hidden instance whose modifier holds a
    space, the first call sets the flag and is left by the exception of the
    class list, and the second returns at the guard. *)
Lemma two_shows_can_leave_no_panel :
  (let s := run mouse_env (initial hover_inputs)
              [EvAfterViewInit; EvDom "mouseenter" true;
               EvChanges (set_disabled true hover_inputs) changed] in
   isVisible s = true
   ∧ panels (run mouse_env s [EvShow; EvShow]) = [])
  ∧ (let s := initial spaced_inputs in
     isVisible s = false
     ∧ show_throws mouse_env s = true
     ∧ isVisible (show mouse_env s) = true
     ∧ panels (run mouse_env s [EvShow; EvShow]) = []).
Proof. cbv zeta. vm_compute. repeat split. Qed.

(** The earlier revision had no guard: a second [show] adds a second panel. *)
Lemma earlier_show_twice_two_panels :
  length (panels (Earlier.show mouse_env (Earlier.show mouse_env (initial hover_inputs)))) = 2%nat.
Proof. vm_compute. reflexivity. Qed.

(** ** Teardown *)

Lemma hide_hide (s : State) : hide (hide s) = hide s.
Proof.
  unfold hide at 2 3. destruct (_isVisible (this s)) eqn:E; cbn.
  - apply hide_hidden. rewrite destroy_unfold. reflexivity.
  - apply hide_hidden, E.
Qed.

Lemma hide_visible (s : State) :
  Inv s → _isVisible (this s) = true →
  hide s =
  {| inputs := inputs s; this := set_isVisible false (this s);
     world :=
       {| style := style (world s); attached := attached (world s);
          body := []; views := []; components := []; appViews := [];
          tracking := []; timers := [];
          now := now (world s); next := next (world s) |} |}.
Proof.
  intros H Hv. unfold hide. rewrite Hv. cbn.
  rewrite (destroy_released _ (Inv_set_isVisible false s H)). reflexivity.
Qed.

(** C7, amended: teardown is idempotent ([destroy] after [destroy] is
    [destroy], [hide] after [hide] is [hide]) and leaves a never-shown
    instance as it is; a [hide] of a visible instance removes the panel,
    destroys the embedded and component views, stops position tracking and
    clears the timer, while the fields [tooltipElRef], [embdedViewRef],
    [componentRef] and [cleanupFn] keep the references they held. *)
Theorem teardown_idempotent_references_kept (env : Env) (i : Inputs) (es : list Event) :
  let s := run env (initial i) es in
  destroy (destroy s) = destroy s
  ∧ destroy (initial i) = initial i
  ∧ hide (hide s) = hide s
  ∧ (_isVisible (this s) = true →
     panels (hide s) = [] ∧ views (world (hide s)) = []
     ∧ components (world (hide s)) = [] ∧ appViews (world (hide s)) = []
     ∧ tracking (world (hide s)) = [] ∧ timers (world (hide s)) = []
     ∧ tooltipElRef (this (hide s)) = tooltipElRef (this s)
     ∧ embdedViewRef (this (hide s)) = embdedViewRef (this s)
     ∧ componentRef (this (hide s)) = componentRef (this s)
     ∧ cleanupFn (this (hide s)) = cleanupFn (this s)).
Proof.
  intros s. split; [apply destroy_idempotent | split; [reflexivity | split; [apply hide_hide |]]].
  intros Hv. rewrite (hide_visible s (Inv_reachable env i es) Hv). cbn.
  repeat split.
Qed.

Lemma teardown_idempotent_references_kept_witness :
  let s := run mouse_env (initial template_inputs) [EvAfterViewInit; EvDom "mouseenter" true] in
  _isVisible (this s) = true
  ∧ panels (hide s) = [] ∧ views (world (hide s)) = []
  ∧ tooltipElRef (this (hide s)) = tooltipElRef (this s)
  ∧ embdedViewRef (this (hide s)) = embdedViewRef (this s).
Proof.
  cbv zeta. split; [vm_compute; reflexivity |].
  pose proof (teardown_idempotent_references_kept mouse_env template_inputs
                [EvAfterViewInit; EvDom "mouseenter" true]) as (_ & _ & _ & H).
  assert (_isVisible (this (run mouse_env (initial template_inputs)
            [EvAfterViewInit; EvDom "mouseenter" true])) = true) as Hv
    by (vm_compute; reflexivity).
  destruct (H Hv) as (Hp & Hvw & _ & _ & _ & _ & Hel & Hev & _).
  auto.
Defined.

Lemma references_not_nulled_after_hide :
  let s := run mouse_env (initial template_inputs) [EvAfterViewInit; EvShow; EvHide] in
  isVisible s = false ∧ panels s = []
  ∧ tooltipElRef (this s) ≠ None ∧ embdedViewRef (this s) ≠ None ∧ cleanupFn (this s) ≠ None.
Proof. cbv zeta. vm_compute. repeat split; discriminate. Qed.

(** ** Recorded and registered listeners *)

Lemma recorded_addListener (event : string) (h : Handler) (s : State) :
  eventListeners (this (addListener event h s))
  = eventListeners (this s) ++
    [{| l_event := event; l_handler := h; l_options := {| passive := true |} |}].
Proof. reflexivity. Qed.

Lemma recorded_on_world (f : World → World) (s : State) :
  eventListeners (this (on_world f s)) = eventListeners (this s).
Proof. reflexivity. Qed.

Lemma next_addListener (event : string) (h : Handler) (s : State) :
  next (world (addListener event h s)) = next (world s).
Proof. reflexivity. Qed.

Lemma next_set_next (n : nat) (s : State) : next (world (on_world (set_next n) s)) = n.
Proof. reflexivity. Qed.

Lemma disableNativeGestures_frame (env : Env) (s : State) :
  eventListeners (this (disableNativeGestures env s)) = eventListeners (this s)
  ∧ next (world (disableNativeGestures env s)) = next (world s).
Proof.
  unfold disableNativeGestures.
  destruct (negb (String.eqb (nodeName env) "INPUT") && negb (String.eqb (nodeName env) "TEXTAREA")),
    (negb (draggable env)); split; reflexivity.
Qed.

Ltac recorded_simpl :=
  repeat first
    [ rewrite recorded_addListener | rewrite recorded_on_world
    | rewrite next_addListener | rewrite next_set_next
    | rewrite (proj1 (disableNativeGestures_frame _ _))
    | rewrite (proj2 (disableNativeGestures_frame _ _)) ].

Lemma setupListeners_records (env : Env) (s : State) :
  eventListeners (this (setupListeners env s)) = eventListeners (this s) ++ added env s.
Proof.
  unfold setupListeners, added. rewrite recorded_on_world.
  destruct (trigger (inputs s)).
  - unfold setupClickEvents, closure, fresh. cbv beta iota zeta. recorded_simpl. reflexivity.
  - destruct (Helpers.supportsMouseEvents (navigator env));
      unfold setupMouseEvents, setupTouchEvents, setupFocusAndBlurEvents, closure, fresh;
      cbv beta iota zeta; recorded_simpl; rewrite <- !app_assoc; reflexivity.
Qed.

Lemma added_well_wired (env : Env) (s : State) : Forall well_wired (added env s).
Proof.
  unfold added. destruct (trigger (inputs s));
    [| destruct (Helpers.supportsMouseEvents (navigator env))];
    cbn [app];
    repeat (apply Forall_cons; split;
            [split; [cbn; repeat first [left; reflexivity | right] | reflexivity] |]);
    apply Forall_nil_2.
Qed.

Lemma recorded_destroy (s : State) : eventListeners (this (destroy s)) = eventListeners (this s).
Proof. rewrite destroy_unfold. reflexivity. Qed.

Lemma recorded_show (env : Env) (s : State) :
  eventListeners (this (show env s)) = eventListeners (this s).
Proof.
  unfold show. destruct (_isVisible (this s)); [reflexivity |].
  match goal with |- context [render env ?x] =>
    destruct (render_effect env x) as (ps & aus & te & cf & vs & ev & n' & -> & _) end.
  cbn. rewrite destroy_unfold. reflexivity.
Qed.

Lemma recorded_hide (s : State) : eventListeners (this (hide s)) = eventListeners (this s).
Proof.
  unfold hide. destruct (_isVisible (this s)); cbn; [| reflexivity].
  rewrite destroy_unfold. reflexivity.
Qed.

Lemma recorded_clearTimeout (t : option nat) (s : State) :
  eventListeners (this (clearTimeout t s)) = eventListeners (this s).
Proof. destruct t; reflexivity. Qed.

Lemma recorded_run_callback (env : Env) (cb : Callback) (u : bool) (s : State) :
  eventListeners (this (run_callback env cb u s)) = eventListeners (this s).
Proof.
  destruct cb; cbn [run_callback].
  - apply recorded_show.
  - apply recorded_hide.
  - unfold toggle. destruct (_isVisible (this s)); [apply recorded_hide | apply recorded_show].
  - destruct (_isVisible (this s)); [destruct u; cbn [negb] |]; try reflexivity.
    apply recorded_hide.
  - destruct (touchstartTimeout (this s)); reflexivity.
  - rewrite recorded_hide. apply recorded_clearTimeout.
Qed.

Lemma recorded_dispatch (env : Env) (type : string) (u : bool) (s : State) :
  eventListeners (this (dispatch env type u s)) = eventListeners (this s).
Proof.
  unfold dispatch. generalize (attached (world s)) as ls. intros ls. revert s.
  induction ls as [| l ls IH]; cbn [fold_left]; intros s; [reflexivity |].
  rewrite IH. destruct (String.eqb (l_event l) type); [apply recorded_run_callback | reflexivity].
Qed.

Lemma recorded_run_timers (env : Env) (fuel : nat) (s : State) :
  eventListeners (this (run_timers env fuel s)) = eventListeners (this s).
Proof.
  revert s. induction fuel as [| n IH]; cbn [run_timers]; intros s; [reflexivity |].
  destruct (find (due (world s)) (timers (world s))) as [t |]; [| reflexivity].
  rewrite IH, recorded_run_callback. reflexivity.
Qed.

Lemma recorded_step (env : Env) (s : State) (e : Event) :
  ∃ ls, eventListeners (this (step env s e)) = eventListeners (this s) ++ ls
        ∧ Forall well_wired ls.
Proof.
  assert (∀ x, eventListeners (this x) = eventListeners (this s) →
               ∃ ls, eventListeners (this x) = eventListeners (this s) ++ ls
                     ∧ Forall well_wired ls) as Hsame.
  { intros x ->. exists []. rewrite app_nil_r. split; [reflexivity | constructor]. }
  assert (∀ x, eventListeners (this x) = eventListeners (this s) →
               ∃ ls, eventListeners (this (setupListeners env x)) = eventListeners (this s) ++ ls
                     ∧ Forall well_wired ls) as Hsetup.
  { intros x Hx. exists (added env x). rewrite setupListeners_records, Hx.
    split; [reflexivity | apply added_well_wired]. }
  destruct e; cbn [step].
  - unfold ngAfterViewInit. destruct (_ || _); [apply Hsame | apply Hsetup]; reflexivity.
  - unfold ngOnChanges. destruct disabledChange as [c |]; [| apply Hsame; reflexivity].
    destruct (negb (firstChange c)); [| apply Hsame; reflexivity].
    destruct (_ || _); [apply Hsame; reflexivity |].
    destruct (disabled _); [| apply Hsetup; reflexivity].
    apply Hsame. unfold removeListeners. rewrite recorded_on_world.
    destruct (_isVisible _); [rewrite recorded_destroy |]; reflexivity.
  - apply Hsame. unfold ngOnDestroy, removeListeners.
    rewrite recorded_on_world. apply recorded_destroy.
  - apply Hsame, recorded_show.
  - apply Hsame, recorded_hide.
  - apply Hsame. unfold toggle. destruct (_isVisible (this s)); [apply recorded_hide | apply recorded_show].
  - apply Hsame, recorded_dispatch.
  - apply Hsame. unfold advance. rewrite recorded_run_timers. reflexivity.
Qed.

Lemma recorded_run (env : Env) (es : list Event) (s : State) :
  ∃ ls, eventListeners (this (run env s es)) = eventListeners (this s) ++ ls
        ∧ Forall well_wired ls.
Proof.
  revert s. induction es as [| e es IH]; intros s.
  - exists []. rewrite app_nil_r. split; [reflexivity | constructor].
  - change (run env s (e :: es)) with (run env (step env s e) es).
    destruct (recorded_step env s e) as (l1 & H1 & W1).
    destruct (IH (step env s e)) as (l2 & H2 & W2).
    exists (l1 ++ l2). rewrite H2, H1, app_assoc. split; [reflexivity |].
    apply Forall_app. split; assumption.
Qed.

Lemma attached_well_wired (env : Env) (i : Inputs) (es : list Event) :
  Forall well_wired (attached (world (run env (initial i) es))).
Proof.
  destruct (recorded_run env es (initial i)) as (ls & H & W). cbn in H.
  pose proof (Inv_reachable env i es) as [_ _ _ _ _ _ Hat].
  apply Forall_forall. intros l Hl. apply list_elem_of_In, Hat in Hl.
  rewrite H in Hl. rewrite Forall_forall in W. apply W, list_elem_of_In, Hl.
Qed.

Lemma wheel_handler (l : Listener) :
  well_wired l → l_event l = "wheel" → h_body (l_handler l) = CbWheel.
Proof.
  intros [Hin _] He. rewrite He in Hin. cbn in Hin.
  repeat (destruct Hin as [Hin | Hin]; [congruence |]). destruct Hin.
Qed.

Lemma hide_handler (l : Listener) (type : string) :
  well_wired l → In type hide_gestures → l_event l = type →
  h_body (l_handler l) = CbHide ∨ h_body (l_handler l) = CbTouchend.
Proof.
  intros [Hin _] Ht He. rewrite He in Hin. cbn in Hin, Ht.
  repeat (destruct Ht as [<- | Ht];
    [repeat (destruct Hin as [Hin | Hin]; [(discriminate Hin || (injection Hin as <-; auto)) |]);
     destruct Hin |]).
  destruct Ht.
Qed.

(** ** The long-press timer *)

Lemma ngOnDestroy_torn_down (s : State) : Inv s → torn_down (ngOnDestroy s).
Proof.
  intros H. unfold ngOnDestroy, torn_down.
  pose proof (Inv_destroy s H) as [_ _ _ _ _ _ Hat].
  split; [apply removeListeners_detaches, Hat |].
  cbn. rewrite (destroy_released s H). split; reflexivity.
Qed.

Lemma run_timers_none (env : Env) (fuel : nat) (s : State) :
  timers (world s) = [] → run_timers env fuel s = s.
Proof. intros H. destruct fuel; cbn; [| rewrite H]; reflexivity. Qed.

Lemma dispatch_none (env : Env) (type : string) (u : bool) (s : State) :
  attached (world s) = [] → dispatch env type u s = s.
Proof. intros H. unfold dispatch. rewrite H. reflexivity. Qed.



Lemma show_no_timer (env : Env) (s : State) :
  timers (world s) = [] → timers (world (show env s)) = [].
Proof.
  intros H. unfold show. destruct (_isVisible (this s)); [exact H |].
  match goal with |- context [render env ?x] =>
    destruct (render_effect env x) as (ps & aus & te & cf & vs & ev & n' & -> & _) end.
  rewrite destroy_unfold. cbn. rewrite H. destruct (touchstartTimeout (this s)); reflexivity.
Qed.

(** The fuel [advance] gives to [run_timers] is enough: in a reachable state
    no timer that is due is left pending once [advance] returns. *)
Lemma advance_exhausts (env : Env) (dt : nat) (s : State) :
  Inv s →
  List.find (due (world (advance env dt s))) (timers (world (advance env dt s))) = None.
Proof.
  intros H. unfold advance.
  assert (Inv (on_world (λ w, set_now (now w + dt)%nat w) s)) as H1
    by (destruct H; constructor; assumption).
  revert H1. generalize (on_world (λ w, set_now (now w + dt)%nat w) s). clear H s.
  intros s [_ _ _ Hti Hcb _ _].
  destruct Hti as [Hnil | (t & r & _ & _ & Ht)].
  - rewrite Hnil. cbn. rewrite Hnil. reflexivity.
  - rewrite Ht in Hcb. apply Forall_inv in Hcb.
    rewrite Ht. cbn [length run_timers]. rewrite Ht. cbn [find].
    destruct (due (world s) t) eqn:Hdue.
    + rewrite Hcb. cbn [run_callback].
      rewrite show_no_timer; [reflexivity |].
      cbn. rewrite Ht. cbn. rewrite Nat.eqb_refl. reflexivity.
    + rewrite Ht. cbn [find]. rewrite Hdue. reflexivity.
Qed.






(** ** The server *)

Lemma inert_step (env : Env) (s : State) (e : Event) :
  isServer env = true → inert s → inert (step env s e).
Proof.
  intros Hsrv (Ha & Hl & Ht). destruct e; cbn.
  - unfold ngAfterViewInit. rewrite Hsrv, orb_true_r. cbn. repeat split; assumption.
  - unfold ngOnChanges. rewrite Hsrv, orb_true_r.
    destruct disabledChange as [c |]; [destruct (negb (firstChange c)) |];
      repeat split; assumption.
  - unfold ngOnDestroy, inert. cbn. rewrite destroy_unfold. cbn. rewrite Hl, Ht, Ha. cbn.
    destruct (touchstartTimeout (this s)); repeat split.
  - unfold show. destruct (_isVisible (this s)); [repeat split; assumption |].
    match goal with |- context [render env ?x] =>
      destruct (render_effect env x) as (ps & aus & te & cf & vs & ev & n' & -> & _) end.
    rewrite destroy_unfold. unfold inert. cbn. rewrite Ha, Hl, Ht.
    destruct (touchstartTimeout (this s)); repeat split.
  - unfold hide. destruct (_isVisible (this s)); cbn; [| repeat split; assumption].
    rewrite destroy_unfold. unfold inert. cbn. rewrite Ha, Hl, Ht.
    destruct (touchstartTimeout (this s)); repeat split.
  - unfold toggle, show, hide. destruct (_isVisible (this s)); cbn.
    + rewrite destroy_unfold. unfold inert. cbn. rewrite Ha, Hl, Ht.
      destruct (touchstartTimeout (this s)); repeat split.
    + match goal with |- context [render env ?x] =>
        destruct (render_effect env x) as (ps & aus & te & cf & vs & ev & n' & -> & _) end.
      rewrite destroy_unfold. unfold inert. cbn. rewrite Ha, Hl, Ht.
      destruct (touchstartTimeout (this s)); repeat split.
  - rewrite dispatch_none by exact Ha. repeat split; assumption.
  - unfold advance. rewrite run_timers_none by exact Ht. repeat split; assumption.
Qed.

Lemma inert_run (env : Env) (es : list Event) (s : State) :
  isServer env = true → inert s → inert (run env s es).
Proof.
  intros Hsrv. revert s. induction es as [| e es IH]; cbn; intros s H; [exact H |].
  apply IH, inert_step; assumption.
Qed.

Lemma inert_visibility (env : Env) (s : State) (e : Event) :
  isServer env = true → inert s → is_api_call e = false →
  isVisible (step env s e) = isVisible s.
Proof.
  intros Hsrv (Ha & Hl & Ht) Hapi. destruct e; try discriminate Hapi; cbn.
  - unfold ngAfterViewInit. rewrite Hsrv, orb_true_r. reflexivity.
  - unfold ngOnChanges. rewrite Hsrv, orb_true_r.
    destruct disabledChange as [c |]; [destruct (negb (firstChange c)) |]; reflexivity.
  - unfold ngOnDestroy, isVisible. cbn. rewrite destroy_unfold. reflexivity.
  - rewrite dispatch_none by exact Ha. reflexivity.
  - unfold advance. rewrite run_timers_none by exact Ht. reflexivity.
Qed.

(** C10: on the server, whatever the sequence of lifecycle hooks, input
    changes, API calls, DOM events and timer ticks, no listener is ever
    registered on the trigger (nor recorded, nor any timer pending), and an
    event other than a [show], [hide] or [toggle] call leaves the visibility
    flag as it is. *)
Theorem server_instance_inert (env : Env) (i : Inputs) (es : list Event) :
  isServer env = true →
  let s := run env (initial i) es in
  attached (world s) = [] ∧ eventListeners (this s) = [] ∧ timers (world s) = []
  ∧ ∀ e, is_api_call e = false → isVisible (step env s e) = isVisible s.
Proof.
  intros Hsrv s.
  assert (inert s) as H by (apply inert_run; [exact Hsrv | repeat split]).
  destruct H as (Ha & Hl & Ht). repeat split; try assumption.
  intros e He. apply inert_visibility; [exact Hsrv | repeat split; assumption | exact He].
Qed.

Lemma server_instance_inert_witness :
  let s := run server_env (initial hover_inputs)
             [EvAfterViewInit; EvChanges (set_disabled true hover_inputs) changed;
              EvChanges hover_inputs changed; EvShow] in
  attached (world s) = []
  ∧ isVisible (step server_env s (EvDom "mouseleave" false)) = isVisible s.
Proof.
  cbv zeta.
  pose proof (server_instance_inert server_env hover_inputs
                [EvAfterViewInit; EvChanges (set_disabled true hover_inputs) changed;
                 EvChanges hover_inputs changed; EvShow] eq_refl) as (Ha & _ & _ & Hv).
  split; [exact Ha | exact (Hv (EvDom "mouseleave" false) eq_refl)].
Defined.

(** ** Disabling and re-enabling *)

Lemma disable_while_visible (env : Env) (s : State) :
  Inv s → _isVisible (this s) = true → manual (inputs s) = false → isServer env = false →
  let s' := step env s (EvChanges (set_disabled true (inputs s)) changed) in
  panels s' = [] ∧ attached (world s') = [] ∧ _isVisible (this s') = true.
Proof.
  intros H Hv Hm Hsrv. cbn. rewrite Hm, Hsrv, Hv. cbn.
  pose proof (Inv_on_inputs (λ _, set_disabled true (inputs s)) s H) as H1.
  split; [| split].
  - unfold panels. cbn. rewrite (destroy_released _ H1). reflexivity.
  - apply removeListeners_detaches. apply (Inv_destroy _ H1).
  - rewrite destroy_unfold. exact Hv.
Qed.

(** C2, at the failing input: a hover instance shown by mouseenter and then
    disabled loses its panel and its listeners, but its visibility flag stays
    true; it is still true once the instance is enabled again, where a
    mouseenter then shows nothing. *)
Theorem disable_while_visible_flag_stays :
  let s := run mouse_env (initial hover_inputs)
             [EvAfterViewInit; EvDom "mouseenter" true;
              EvChanges (set_disabled true hover_inputs) changed] in
  panels s = [] ∧ attached (world s) = [] ∧ isVisible s = true
  ∧ let s' := step mouse_env s (EvChanges hover_inputs changed) in
    isVisible s' = true ∧ panels s' = []
    ∧ panels (step mouse_env s' (EvDom "mouseenter" true)) = [].
Proof. cbv zeta. vm_compute. repeat split. Qed.

Lemma fold_addEventListener_keeps (ls att : list Listener) (l : Listener) :
  existsb (same_registration l) att = true →
  existsb (same_registration l) (fold_left addEventListener ls att) = true.
Proof.
  revert att. induction ls as [| x ls IH]; cbn; intros att H; [exact H |].
  apply IH. unfold addEventListener. destruct (existsb (same_registration x) att); [exact H |].
  rewrite existsb_app, H. reflexivity.
Qed.

Lemma fold_addEventListener_attaches (ls att : list Listener) (l : Listener) :
  In l ls → existsb (same_registration l) (fold_left addEventListener ls att) = true.
Proof.
  revert att. induction ls as [| x ls IH]; cbn; intros att; [intros [] |].
  intros [-> | Hl]; [| apply IH, Hl].
  apply fold_addEventListener_keeps. unfold addEventListener.
  destruct (existsb (same_registration l) att) eqn:E; [exact E |].
  rewrite existsb_app. cbn. rewrite same_registration_refl, orb_true_r. reflexivity.
Qed.

(** Every recorded listener is registered once [setupListeners] returns, and
    none is once [removeListeners] or [ngOnDestroy] returns. *)
Lemma listeners_attached_and_detached (env : Env) (i : Inputs) (es : list Event) :
  let s := run env (initial i) es in
  (∀ l, In l (eventListeners (this (setupListeners env s))) →
        existsb (same_registration l) (attached (world (setupListeners env s))) = true)
  ∧ attached (world (removeListeners s)) = []
  ∧ attached (world (ngOnDestroy s)) = [].
Proof.
  intros s. pose proof (Inv_reachable env i es) as H. fold s in H. split; [| split].
  - destruct (setupListeners_effect env s) as (ls & st & n' & ->). cbn.
    intros l Hl. apply fold_addEventListener_attaches, Hl.
  - apply removeListeners_detaches. destruct H. assumption.
  - apply (ngOnDestroy_torn_down s H).
Qed.

(** C3, at the failing input: a click instance that is initialised,
    disabled and enabled again has two click handlers registered (and two
    recorded), and one click then toggles twice and shows nothing. *)
Theorem reenable_duplicates_handlers :
  let s := run mouse_env (initial click_inputs)
             [EvAfterViewInit; EvChanges (set_disabled true click_inputs) changed;
              EvChanges click_inputs changed] in
  length (handlers_for "click" s) = 2%nat
  ∧ length (eventListeners (this s)) = 2%nat
  ∧ isVisible (step mouse_env s (EvDom "click" true)) = false
  ∧ panels (step mouse_env s (EvDom "click" true)) = [].
Proof. cbv zeta. vm_compute. repeat split. Qed.

(** ** Component content *)





(** ** Native gestures *)

Lemma disableNativeGestures_style (env : Env) (s1 s2 : State) :
  style (world s1) = style (world s2) →
  style (world (disableNativeGestures env s1)) = style (world (disableNativeGestures env s2)).
Proof.
  intros H. unfold disableNativeGestures.
  destruct (negb (String.eqb (nodeName env) "INPUT") && negb (String.eqb (nodeName env) "TEXTAREA")),
    (negb (draggable env)); cbn -[insert]; rewrite H; reflexivity.
Qed.

Lemma style_addListener (event : string) (h : Handler) (s : State) :
  style (world (addListener event h s)) = style (world s).
Proof. reflexivity. Qed.

Lemma style_set_next (n : nat) (s : State) :
  style (world (on_world (set_next n) s)) = style (world s).
Proof. reflexivity. Qed.

Lemma attach_style (f : World → list Listener) (s : State) :
  style (world (on_world (λ w, set_attached (f w) w) s)) = style (world s).
Proof. reflexivity. Qed.

Lemma setupListeners_style (env : Env) (s : State) :
  style (world (setupListeners env s))
  = if long_press_is_show_gesture env s
    then style (world (disableNativeGestures env s)) else style (world s).
Proof.
  unfold setupListeners, long_press_is_show_gesture. rewrite attach_style.
  destruct (trigger (inputs s)); [reflexivity |].
  destruct (Helpers.supportsMouseEvents (navigator env)); cbn [negb]; [reflexivity |].
  unfold setupTouchEvents, closure, fresh. cbv beta iota zeta.
  rewrite !style_addListener, style_set_next, style_addListener, style_set_next.
  apply disableNativeGestures_style. reflexivity.
Qed.

(** C9, amended: [disableNativeGestures] sets the four user-select
    properties to [none] unless the trigger is an INPUT or a TEXTAREA, sets
    [webkitUserDrag] to [none] unless the trigger is draggable, always sets
    [touchAction] to [none] and [webkitTapHighlightColor] to [transparent],
    and writes no other property (no callout property in particular);
    [setupListeners] applies it exactly when touch long-press is the show
    gesture. *)
Theorem disableNativeGestures_overrides (env : Env) (s : State) :
  let st := style (world s) in
  let st' := style (world (disableNativeGestures env s)) in
  Forall (λ k, st' !! k = if text_input env then st !! k else Some "none") select_properties
  ∧ st' !! "webkitUserDrag" = (if draggable env then st !! "webkitUserDrag" else Some "none")
  ∧ st' !! "touchAction" = Some "none"
  ∧ st' !! "webkitTapHighlightColor" = Some "transparent"
  ∧ (∀ k, k ∉ ["touchAction"; "webkitTapHighlightColor"; "webkitUserDrag"] ++ select_properties →
          st' !! k = st !! k)
  ∧ style (world (setupListeners env s))
    = if long_press_is_show_gesture env s then st' else st.
Proof.
  cbv zeta. split; [| split; [| split; [| split; [| split]]]].
  - unfold disableNativeGestures, text_input, select_properties.
    destruct (String.eqb (nodeName env) "INPUT"), (String.eqb (nodeName env) "TEXTAREA"),
      (draggable env); cbn -[insert]; repeat constructor; simplify_map_eq; reflexivity.
  - unfold disableNativeGestures.
    destruct (negb (String.eqb (nodeName env) "INPUT") && negb (String.eqb (nodeName env) "TEXTAREA")),
      (draggable env); cbn -[insert]; simplify_map_eq; reflexivity.
  - unfold disableNativeGestures.
    destruct (negb (String.eqb (nodeName env) "INPUT") && negb (String.eqb (nodeName env) "TEXTAREA")),
      (negb (draggable env)); cbn -[insert]; simplify_map_eq; reflexivity.
  - unfold disableNativeGestures.
    destruct (negb (String.eqb (nodeName env) "INPUT") && negb (String.eqb (nodeName env) "TEXTAREA")),
      (negb (draggable env)); cbn -[insert]; simplify_map_eq; reflexivity.
  - intros k Hk. unfold select_properties in Hk. cbn [app] in Hk.
    rewrite !not_elem_of_cons in Hk. destruct Hk as (? & ? & ? & ? & ? & ? & ? & _).
    unfold disableNativeGestures.
    destruct (negb (String.eqb (nodeName env) "INPUT") && negb (String.eqb (nodeName env) "TEXTAREA")),
      (negb (draggable env)); cbn -[insert]; simplify_map_eq; reflexivity.
  - apply setupListeners_style.
Qed.

Lemma disableNativeGestures_overrides_witness :
  style (world (disableNativeGestures touch_env (initial hover_inputs))) !! "webkitTouchCallout"
  = style (world (initial hover_inputs)) !! "webkitTouchCallout".
Proof.
  pose proof (disableNativeGestures_overrides touch_env (initial hover_inputs))
    as (_ & _ & _ & _ & H & _).
  apply H. unfold select_properties. cbn [app].
  rewrite !not_elem_of_cons. repeat split; try discriminate. apply not_elem_of_nil.
Defined.

(** The drag override is applied exactly when the trigger is not draggable,
    and no callout property is written. *)
Lemma drag_disabled_when_not_draggable :
  (draggable touch_env = false
   ∧ style (world (disableNativeGestures touch_env (initial hover_inputs))) !! "webkitUserDrag"
     = Some "none")
  ∧ (draggable draggable_env = true
     ∧ style (world (disableNativeGestures draggable_env (initial hover_inputs))) !! "webkitUserDrag"
       = None)
  ∧ style (world (disableNativeGestures touch_env (initial hover_inputs))) !! "webkitTouchCallout"
    = None.
Proof. vm_compute. repeat split. Qed.

(** * Further properties *)

Lemma clean_hide (s : State) : Inv s → clean_when_hidden s → clean_when_hidden (hide s).
Proof.
  intros H Hc. destruct (_isVisible (this s)) eqn:E.
  - rewrite (hide_visible s H E). intros _. cbn. auto.
  - rewrite (hide_hidden s E). exact Hc.
Qed.

Lemma clean_show (env : Env) (s : State) : clean_when_hidden (show env s).
Proof. intros H. rewrite show_is_visible in H. discriminate. Qed.

Lemma clean_clearTimeout (t : option nat) (s : State) :
  clean_when_hidden s → clean_when_hidden (clearTimeout t s).
Proof. destruct t; [| trivial]. intros H. exact H. Qed.

Lemma clean_run_callback (env : Env) (cb : Callback) (u : bool) (s : State) :
  Inv s → clean_when_hidden s → clean_when_hidden (run_callback env cb u s).
Proof.
  intros H Hc. destruct cb; cbn [run_callback].
  - apply clean_show.
  - apply clean_hide; assumption.
  - unfold toggle. destruct (_isVisible (this s)); [apply clean_hide; assumption | apply clean_show].
  - destruct (_isVisible (this s)) eqn:E; [destruct u; cbn [negb] |]; try exact Hc.
    apply clean_hide; assumption.
  - destruct (touchstartTimeout (this s)); exact Hc.
  - apply clean_hide; [apply Inv_clearTimeout, H | apply clean_clearTimeout, Hc].
Qed.

Lemma clean_dispatch (env : Env) (type : string) (u : bool) (s : State) :
  Inv s → clean_when_hidden s → clean_when_hidden (dispatch env type u s).
Proof.
  unfold dispatch. generalize (attached (world s)) as ls. intros ls. revert s.
  induction ls as [| l ls IH]; cbn [fold_left]; intros s H Hc; [exact Hc |].
  destruct (String.eqb (l_event l) type); [| apply IH; assumption].
  apply IH; [apply Inv_run_callback, H | apply clean_run_callback; assumption].
Qed.

Lemma clean_run_timers (env : Env) (fuel : nat) (s : State) :
  Inv s → clean_when_hidden s → clean_when_hidden (run_timers env fuel s).
Proof.
  revert s. induction fuel as [| n IH]; cbn [run_timers]; intros s H Hc; [exact Hc |].
  destruct (find (due (world s)) (timers (world s))) as [t |]; [| exact Hc].
  apply IH.
  - apply Inv_run_callback, (Inv_clearTimeout (Some (t_id t))), H.
  - apply clean_run_callback; [apply (Inv_clearTimeout (Some (t_id t))), H |].
    apply (clean_clearTimeout (Some (t_id t))), Hc.
Qed.

Lemma clean_setupListeners (env : Env) (s : State) :
  clean_when_hidden s → clean_when_hidden (setupListeners env s).
Proof.
  intros Hc. destruct (setupListeners_effect env s) as (ls & st & n' & ->). exact Hc.
Qed.

Lemma clean_destroy (s : State) : Inv s → clean_when_hidden (destroy s).
Proof. intros H _. rewrite (destroy_released s H). cbn. auto. Qed.

Lemma clean_step (env : Env) (s : State) (e : Event) :
  Inv s → clean_when_hidden s → clean_when_hidden (step env s e).
Proof.
  intros H Hc. destruct e; cbn [step].
  - unfold ngAfterViewInit. destruct (_ || _); [exact Hc | apply clean_setupListeners, Hc].
  - unfold ngOnChanges. destruct disabledChange as [c |]; [| exact Hc].
    destruct (negb (firstChange c)); [| exact Hc].
    destruct (_ || _); [exact Hc |].
    destruct (disabled _); [| apply clean_setupListeners, Hc].
    destruct (_isVisible (this (on_inputs (λ _, new) s))); [| exact Hc].
    apply (clean_destroy (on_inputs (λ _, new) s)), Inv_on_inputs, H.
  - apply (clean_destroy s H).
  - apply clean_show.
  - apply clean_hide; assumption.
  - unfold toggle. destruct (_isVisible (this s)); [apply clean_hide; assumption | apply clean_show].
  - apply clean_dispatch; assumption.
  - unfold advance. apply clean_run_timers; [| exact Hc]. destruct H; constructor; assumption.
Qed.

Lemma clean_reachable (env : Env) (i : Inputs) (es : list Event) :
  clean_when_hidden (run env (initial i) es).
Proof.
  assert (∀ s, Inv s → clean_when_hidden s → clean_when_hidden (run env s es)) as Hrun.
  { induction es as [| e es IH]; cbn; intros s H Hc; [exact Hc |].
    apply IH; [apply Inv_step, H | apply clean_step; assumption]. }
  apply Hrun; [apply Inv_initial |]. intros _. cbn. auto.
Qed.

(** X1: in every state an instance can reach, a hidden instance has no panel
    in the document, no live embedded view and no position tracking running:
    nothing outlives the visibility flag. *)
Theorem hidden_instance_holds_nothing (env : Env) (i : Inputs) (es : list Event) :
  let s := run env (initial i) es in
  match isVisible s with
  | false => panels s = [] ∧ views (world s) = [] ∧ tracking (world s) = []
  | true => True
  end.
Proof.
  intros s. pose proof (clean_reachable env i es) as Hc. fold s in Hc.
  unfold isVisible. destruct (_isVisible (this s)) eqn:E; [exact I | exact (Hc E)].
Qed.

(** X3: [toggle] negates the visibility flag; in a reachable state it
    leaves exactly one panel when it ends visible and the panel's class names
    are valid class tokens, and none otherwise; and two toggles restore the
    flag. *)
Theorem toggle_flips (env : Env) (i : Inputs) (es : list Event) :
  let s := run env (initial i) es in
  isVisible (toggle env s) = negb (isVisible s)
  ∧ length (panels (toggle env s))
    = (if isVisible (toggle env s) && class_tokens_ok s then 1 else 0)%nat
  ∧ isVisible (toggle env (toggle env s)) = isVisible s.
Proof.
  intros s. pose proof (Inv_reachable env i es) as H. fold s in H.
  assert (∀ s, isVisible (toggle env s) = negb (isVisible s)) as Hflip.
  { intros x. unfold isVisible, toggle. destruct (_isVisible (this x)); cbn;
      [apply hide_is_hidden | apply show_is_visible]. }
  split; [apply Hflip | split; [| rewrite !Hflip; apply negb_involutive]].
  rewrite Hflip. unfold isVisible, toggle. destruct (_isVisible (this s)) eqn:E; cbn.
  - rewrite (hide_visible s H E). reflexivity.
  - apply (show_hidden env s H E).
Qed.

Lemma setupListeners_attaches (env : Env) (s : State) :
  attached (world (setupListeners env s))
  = fold_left addEventListener (eventListeners (this s) ++ added env s) (attached (world s)).
Proof.
  pose proof (setupListeners_records env s) as Hrec.
  destruct (setupListeners_effect env s) as (ls & st & n' & Heq).
  rewrite Heq in Hrec |- *. cbn in Hrec |- *.
  apply app_inv_head in Hrec. rewrite Hrec. reflexivity.
Qed.

Lemma added_distinct (env : Env) (s : State) :
  fold_left addEventListener (added env s) [] = added env s.
Proof.
  unfold added. destruct (trigger (inputs s)); [reflexivity |].
  destruct (Helpers.supportsMouseEvents (navigator env)); reflexivity.
Qed.

(** X5: the first [setupListeners] of an instance (nothing recorded,
    nothing registered) registers exactly the listeners it records: click for
    a click trigger; focus, blur, mouseenter, mouseleave and wheel for a hover
    trigger with a mouse; focus, blur, touchstart, touchend and touchcancel
    for a hover trigger on a touch device, each with its callback, touchend
    and touchcancel sharing one closure. *)
Theorem first_setup_wires_gesture_table (env : Env) (s : State) :
  eventListeners (this s) = [] → attached (world s) = [] →
  attached (world (setupListeners env s)) = added env s
  ∧ eventListeners (this (setupListeners env s)) = added env s
  ∧ map (λ l, (l_event l, h_body (l_handler l))) (added env s)
    = match trigger (inputs s) with
      | click => [("click", CbToggle)]
      | hover =>
          if Helpers.supportsMouseEvents (navigator env)
          then [("focus", CbShow); ("blur", CbHide); ("mouseenter", CbShow);
                ("mouseleave", CbHide); ("wheel", CbWheel)]
          else [("focus", CbShow); ("blur", CbHide); ("touchstart", CbTouchstart);
                ("touchend", CbTouchend); ("touchcancel", CbTouchend)]
      end.
Proof.
  intros Hl Ha. split; [| split].
  - rewrite setupListeners_attaches, Hl, Ha. apply added_distinct.
  - rewrite setupListeners_records, Hl. reflexivity.
  - unfold added. destruct (trigger (inputs s));
      [| destruct (Helpers.supportsMouseEvents (navigator env))]; reflexivity.
Qed.

Lemma first_setup_wires_gesture_table_witness :
  map (λ l, l_event l) (attached (world (setupListeners touch_env (initial hover_inputs))))
  = ["focus"; "blur"; "touchstart"; "touchend"; "touchcancel"].
Proof.
  pose proof (first_setup_wires_gesture_table touch_env (initial hover_inputs) eq_refl eq_refl)
    as (Ha & _ & _).
  rewrite Ha. vm_compute. reflexivity.
Defined.

(** X6: no sequence of events removes a tuple from [eventListeners]: the
    list after is the list before with more tuples appended; and each
    [setupListeners] call appends one tuple for a click trigger and five for
    a hover trigger. *)
Theorem recorded_listeners_only_grow (env : Env) (s : State) (es : list Event) :
  (∃ ls, eventListeners (this (run env s es)) = eventListeners (this s) ++ ls)
  ∧ length (eventListeners (this (setupListeners env s)))
    = (length (eventListeners (this s))
       + match trigger (inputs s) with click => 1 | hover => 5 end)%nat.
Proof.
  split.
  - destruct (recorded_run env es s) as (ls & H & _). eauto.
  - rewrite setupListeners_records, length_app. f_equal.
    unfold added. destruct (trigger (inputs s));
      [| destruct (Helpers.supportsMouseEvents (navigator env))]; reflexivity.
Qed.

(** X9: in a reachable state a wheel event whose pointer is over the trigger
    (or a descendant of it) changes nothing at all. *)
Theorem wheel_over_trigger_changes_nothing (env : Env) (i : Inputs) (es : list Event) :
  let s := run env (initial i) es in
  dispatch env "wheel" true s = s.
Proof.
  intros s. pose proof (attached_well_wired env i es) as W. fold s in W.
  unfold dispatch. revert W. generalize (attached (world s)) as ls. intros ls. generalize s.
  induction ls as [| l ls IH]; cbn [fold_left]; intros x W; [reflexivity |].
  apply Forall_cons in W as [Wl W].
  destruct (String.eqb (l_event l) "wheel") eqn:E; [| apply IH, W].
  apply String.eqb_eq in E. rewrite (wheel_handler l Wl E). cbn [run_callback negb].
  destruct (_isVisible (this x)); apply IH, W.
Qed.

Lemma run_callback_hides (env : Env) (cb : Callback) (u : bool) (s : State) :
  cb = CbHide ∨ cb = CbTouchend → _isVisible (this (run_callback env cb u s)) = false.
Proof. intros [-> | ->]; cbn [run_callback]; apply hide_is_hidden. Qed.

Lemma dispatch_hides (env : Env) (type : string) (u : bool) (ls : list Listener) (s : State) :
  In type hide_gestures → Forall well_wired ls →
  List.filter (λ l, String.eqb (l_event l) type) ls ≠ [] ∨ _isVisible (this s) = false →
  _isVisible (this (fold_left
     (λ st l, if String.eqb (l_event l) type
              then run_callback env (h_body (l_handler l)) u st else st) ls s)) = false.
Proof.
  intros Ht. revert s. induction ls as [| l ls IH]; cbn [fold_left List.filter]; intros s W Hs.
  - destruct Hs as [Hs | Hs]; [contradiction | exact Hs].
  - apply Forall_cons in W as [Wl W].
    destruct (String.eqb (l_event l) type) eqn:E.
    + apply IH; [exact W | right]. apply String.eqb_eq in E.
      apply run_callback_hides, (hide_handler l type Wl Ht E).
    + apply IH; assumption.
Qed.

(** X8: in a reachable state, a blur, mouseleave, touchend or touchcancel
    event for which a handler is registered leaves the instance hidden, with
    no panel, no live embedded view and no position tracking. *)
Theorem hide_gesture_leaves_no_panel (env : Env) (i : Inputs) (es : list Event)
    (type : string) (u : bool) :
  let s := run env (initial i) es in
  In type hide_gestures → handlers_for type s ≠ [] →
  isVisible (dispatch env type u s) = false
  ∧ panels (dispatch env type u s) = []
  ∧ views (world (dispatch env type u s)) = []
  ∧ tracking (world (dispatch env type u s)) = [].
Proof.
  intros s Ht Hh.
  assert (_isVisible (this (dispatch env type u s)) = false) as Hv.
  { apply dispatch_hides; [exact Ht | apply attached_well_wired | left; exact Hh]. }
  split; [exact Hv |].
  pose proof (clean_reachable env i (es ++ [EvDom type u])) as Hc.
  unfold run in Hc. rewrite fold_left_app in Hc. exact (Hc Hv).
Qed.

Lemma hide_gesture_leaves_no_panel_witness :
  let s := run mouse_env (initial hover_inputs) [EvAfterViewInit; EvDom "mouseenter" true] in
  length (panels s) = 1%nat ∧ panels (dispatch mouse_env "mouseleave" false s) = [].
Proof.
  cbv zeta. split; [vm_compute; reflexivity |].
  assert (handlers_for "mouseleave"
            (run mouse_env (initial hover_inputs) [EvAfterViewInit; EvDom "mouseenter" true])
          ≠ []) as Hh by (vm_compute; discriminate).
  assert (In "mouseleave" hide_gestures) as Ht by (right; left; reflexivity).
  exact (proj1 (proj2 (hide_gesture_leaves_no_panel mouse_env hover_inputs
           [EvAfterViewInit; EvDom "mouseenter" true] "mouseleave" false Ht Hh))).
Defined.

Lemma inert_show (env : Env) (s : State) : inert s → inert (show env s).
Proof.
  intros (Ha & Hl & Ht). unfold show. destruct (_isVisible (this s)); [repeat split; assumption |].
  match goal with |- context [render env ?x] =>
    destruct (render_effect env x) as (ps & aus & te & cf & vs & ev & n' & -> & _) end.
  rewrite destroy_unfold. unfold inert. cbn. rewrite Ha, Hl, Ht.
  destruct (touchstartTimeout (this s)); repeat split.
Qed.

Lemma inert_destroy (s : State) : inert s → inert (destroy s).
Proof.
  intros (Ha & Hl & Ht). rewrite destroy_unfold. unfold inert. cbn. rewrite Ha, Hl, Ht.
  destruct (touchstartTimeout (this s)); repeat split.
Qed.

Lemma inert_hide (s : State) : inert s → inert (hide s).
Proof.
  intros H. unfold hide. destruct (_isVisible (this s)); cbn; [| exact H].
  apply (inert_destroy (on_this (set_isVisible false) s)). exact H.
Qed.

Lemma manual_step (env : Env) (s : State) (e : Event) :
  manual (inputs s) = true → keeps_manual e = true → inert s →
  inert (step env s e) ∧ manual (inputs (step env s e)) = true
  ∧ (is_api_call e = false → isVisible (step env s e) = isVisible s).
Proof.
  intros Hm Hk H. pose proof H as (Ha & Hl & Ht). destruct e; cbn [step].
  - unfold ngAfterViewInit. rewrite Hm. cbn. auto.
  - cbn in Hk. unfold ngOnChanges. cbn [inputs on_inputs]. rewrite Hk. cbn.
    destruct disabledChange as [c |]; [destruct (negb (firstChange c)) |]; cbn; auto.
  - unfold ngOnDestroy. split; [| split].
    + pose proof (inert_destroy s H) as (Ha' & Hl' & Ht'). unfold inert, removeListeners. cbn.
      rewrite Hl'. cbn. auto.
    + cbn. rewrite destroy_unfold. exact Hm.
    + intros _. unfold isVisible. cbn. rewrite destroy_unfold. reflexivity.
  - split; [apply inert_show, H | split; [| discriminate]].
    unfold show. destruct (_isVisible (this s)); [exact Hm |].
    match goal with |- context [render env ?x] =>
      destruct (render_effect env x) as (ps & aus & te & cf & vs & ev & n' & -> & _) end.
    cbn. rewrite destroy_unfold. exact Hm.
  - split; [apply inert_hide, H | split; [| discriminate]].
    unfold hide. destruct (_isVisible (this s)); cbn; [| exact Hm].
    rewrite destroy_unfold. exact Hm.
  - split; [| split; [| discriminate]]; unfold toggle, show, hide;
      destruct (_isVisible (this s)) eqn:E; cbn.
    + apply (inert_destroy (on_this (set_isVisible false) s)). exact H.
    + pose proof (inert_show env s H) as Hs. unfold show in Hs. rewrite E in Hs. exact Hs.
    + rewrite destroy_unfold. exact Hm.
    + match goal with |- context [render env ?x] =>
        destruct (render_effect env x) as (ps & aus & te & cf & vs & ev & n' & -> & _) end.
      cbn. rewrite destroy_unfold. exact Hm.
  - rewrite dispatch_none by exact Ha. auto.
  - unfold advance. rewrite run_timers_none by exact Ht. repeat split; assumption.
Qed.

(** X4: an instance whose [manual] input is true from the start and stays
    true never registers or records a listener and never has a timer pending,
    whatever the hooks and events; only [show], [hide] and [toggle] calls
    change its visibility. *)
Theorem manual_instance_inert (env : Env) (i : Inputs) (es : list Event) :
  manual i = true → forallb keeps_manual es = true →
  let s := run env (initial i) es in
  attached (world s) = [] ∧ eventListeners (this s) = [] ∧ timers (world s) = []
  ∧ ∀ e, keeps_manual e = true → is_api_call e = false →
         isVisible (step env s e) = isVisible s.
Proof.
  intros Hm Hk s.
  assert (inert s ∧ manual (inputs s) = true) as [H Hm'].
  { subst s. assert (inert (initial i)) as H0 by (repeat split).
    change (manual (inputs (initial i)) = true) in Hm.
    revert H0 Hm Hk. generalize (initial i) as s.
    induction es as [| e es IH]; intros s H0 Hm Hk; [split; assumption |].
    cbn in Hk. apply andb_true_iff in Hk as [Hk1 Hk2].
    destruct (manual_step env s e Hm Hk1 H0) as (H1 & Hm1 & _).
    exact (IH (step env s e) H1 Hm1 Hk2). }
  destruct H as (Ha & Hl & Ht). repeat split; try assumption.
  intros e Hk' Hapi.
  apply (manual_step env s e Hm' Hk'); [repeat split; assumption | exact Hapi].
Qed.

Lemma manual_instance_inert_witness :
  let i := {| content := ContentString "Hello"; trigger := hover; placement := None;
              showArrow := true; offset := Some 6; cssModifier := None;
              disabled := false; manual := true |} in
  let s := run mouse_env (initial i) [EvAfterViewInit; EvChanges (set_disabled true i) changed;
                                      EvChanges i changed; EvShow] in
  attached (world s) = []
  ∧ isVisible (step mouse_env s (EvDom "mouseleave" false)) = isVisible s.
Proof.
  cbv zeta.
  pose proof (manual_instance_inert mouse_env
    {| content := ContentString "Hello"; trigger := hover; placement := None;
       showArrow := true; offset := Some 6; cssModifier := None;
       disabled := false; manual := true |}
    [EvAfterViewInit;
     EvChanges (set_disabled true
       {| content := ContentString "Hello"; trigger := hover; placement := None;
          showArrow := true; offset := Some 6; cssModifier := None;
          disabled := false; manual := true |}) changed;
     EvChanges {| content := ContentString "Hello"; trigger := hover; placement := None;
          showArrow := true; offset := Some 6; cssModifier := None;
          disabled := false; manual := true |} changed; EvShow] eq_refl eq_refl)
    as (Ha & _ & _ & Hv).
  split; [exact Ha | exact (Hv (EvDom "mouseleave" false) eq_refl eq_refl)].
Defined.

Lemma fold_appendChild (v : nat) (roots : list string) (id : nat) (cls : list string)
    (attrs : list (string * string)) (children : list Node) :
  fold_left (λ el node, appendChild el (ViewRoot v node)) roots (Div id cls attrs children)
  = Div id cls attrs (children ++ map (ViewRoot v) roots).
Proof.
  revert children. induction roots as [| r roots IH]; intros children; cbn.
  - rewrite app_nil_r. reflexivity.
  - rewrite IH, <- app_assoc. reflexivity.
Qed.

(** X13: [show] on a hidden instance in a reachable state, when the panel's
    class names are valid class tokens and a number given as content is an
    integer below 2^53 in absolute value, leaves in the document exactly the
    panel [container[tabindex=-1] > (arrow?, content)], with a newly
    allocated identity, the modifier class when [cssModifier] is truthy, the
    text of a string or number (or the string conversion of any other
    non-template content; no text node for an empty text) or the root nodes
    of the template's embedded view, which is created with the close callback
    as context; and exactly one position subscription on that panel, with
    the placement input and the middleware offset (only when the offset is
    truthy), flip, shift, arrow (only when [showArrow], on the panel's arrow
    element, with the [arrowPadding] option). *)
Theorem show_mounts_panel_and_tracking (env : Env) (i : Inputs) (es : list Event) :
  let s := run env (initial i) es in
  let n := next (world s) in
  let v := S (S n) in
  let a := if is_template (content (inputs s)) then S v else v in
  let arrow := if showArrow (inputs s) then Some a else None in
  isVisible s = false → class_tokens_ok s = true → exact_number (content (inputs s)) = true →
  panels (show env s)
  = [Div n (panel_classes s) [("tabindex", "-1")]
       (arrow_node (showArrow (inputs s)) a ++
        [Div (S n) ["floating-tooltip__content"] [] (content_children (content (inputs s)) v)])]
  ∧ views (world (show env s))
    = match content (inputs s) with
      | ContentTemplate tpl => [{| v_id := v; v_roots := tpl_roots tpl; v_context := CtxClose |}]
      | _ => []
      end
  ∧ (∃ sub, tracking (world (show env s))
            = [{| au_id := sub; au_floating := n; au_arrow := arrow;
                  au_placement := placement (inputs s);
                  au_middleware := pipeline env (inputs s) arrow |}]
            ∧ cleanupFn (this (show env s)) = Some sub)
  ∧ tooltipElRef (this (show env s)) = Some n
  ∧ (n < next (world (show env s)))%nat.
Proof.
  intros s n v a arrow Hv Hok _. pose proof (Inv_reachable env i es) as H. fold s in H.
  unfold isVisible in Hv. unfold show, panels. rewrite Hv.
  rewrite (destroy_released _ (Inv_set_isVisible true s H)).
  rewrite class_tokens_ok_modifier in Hok.
  subst n v a arrow. revert Hok. generalize s. clear.
  intros [[c tr pl sa off css dis man] f w] Hok.
  unfold render, createElement, createEl, fresh, and_then, panel_classes, pipeline,
    content_children.
  destruct css as [[| ch x] |].
  - cbn. destruct c as [tpl | t | z | cls], sa, (truthy_num off) eqn:Eo;
      cbn; rewrite ?fold_appendChild, ?Eo; cbn;
      repeat split; try (eexists; split; reflexivity); lia.
  - change (negb (has_whitespace (String ch x)) = true) in Hok.
    apply negb_true_iff in Hok.
    assert (String.eqb (String ch x) "" = false) as Hm by reflexivity.
    revert Hok Hm. generalize (String ch x) as m. intros m Hok Hm.
    cbn. rewrite Hm. cbn. rewrite valid_token_modifier, Hok. cbn.
    destruct c as [tpl | t | z | cls], sa, (truthy_num off) eqn:Eo;
      cbn; rewrite ?fold_appendChild, ?Eo; cbn;
      repeat split; try (eexists; split; reflexivity); lia.
  - cbn. destruct c as [tpl | t | z | cls], sa, (truthy_num off) eqn:Eo;
      cbn; rewrite ?fold_appendChild, ?Eo; cbn;
      repeat split; try (eexists; split; reflexivity); lia.
Qed.

Lemma show_mounts_panel_and_tracking_witness :
  let s := run mouse_env (initial template_inputs) [EvAfterViewInit] in
  panels (show mouse_env s)
  = [Div 5 ["floating-tooltip"; "floating-tooltip_dark"] [("tabindex", "-1")]
       [Div 6 ["floating-tooltip__content"] [] [ViewRoot 7 "<span>"]]]
  ∧ views (world (show mouse_env s))
    = [{| v_id := 7; v_roots := ["<span>"]; v_context := CtxClose |}].
Proof.
  cbv zeta.
  assert (isVisible (run mouse_env (initial template_inputs) [EvAfterViewInit]) = false)
    as Hv by (vm_compute; reflexivity).
  assert (class_tokens_ok (run mouse_env (initial template_inputs) [EvAfterViewInit]) = true)
    as Hok by (vm_compute; reflexivity).
  assert (exact_number (content (inputs
            (run mouse_env (initial template_inputs) [EvAfterViewInit]))) = true)
    as Hn by (vm_compute; reflexivity).
  pose proof (show_mounts_panel_and_tracking mouse_env template_inputs [EvAfterViewInit]
                Hv Hok Hn) as (Hp & Hvw & _).
  split; [rewrite Hp | rewrite Hvw]; vm_compute; reflexivity.
Defined.

Lemma setArrowPosition_lookup (env : Env) (st : gmap string string) (s : Side)
    (a : ArrowData) (k : string) :
  setArrowPosition env st (side_string s) a !! k
  = if bool_decide (k ∈ ["left"; "top"; "right"; "bottom"])
    then setArrowPosition env ∅ (side_string s) a !! k
    else st !! k.
Proof.
  unfold setArrowPosition. rewrite !object_assign_lookup, arrowSideTable_opposite, lookup_empty.
  cbn [default].
  destruct (decide (k = "left")) as [-> | ?]; [destruct s; cbn; simplify_map_eq; reflexivity |].
  destruct (decide (k = "top")) as [-> | ?]; [destruct s; cbn; simplify_map_eq; reflexivity |].
  destruct (decide (k = "right")) as [-> | ?]; [destruct s; cbn; simplify_map_eq; reflexivity |].
  destruct (decide (k = "bottom")) as [-> | ?]; [destruct s; cbn; simplify_map_eq; reflexivity |].
  rewrite bool_decide_eq_false_2 by (rewrite !not_elem_of_cons; repeat split; auto using not_elem_of_nil).
  destruct s; cbn; simplify_map_eq; reflexivity.
Qed.

(** X14: when the configured [arrowHeight] is a non-negative number, so
    that every value a position update assigns is a length or empty, a
    position update applied after another gives the styles the later one
    alone gives: no offset of an earlier placement survives a change of
    side. *)
Theorem position_update_overrides_previous (env : Env) (tooltipStyle arrowStyle : gmap string string)
    (r1 r2 : ComputePositionReturn) (h : Z) :
  options env !! "arrowHeight" = Some h → 0 <= h →
  let p1 := setTooltipPosition env tooltipStyle (Some arrowStyle) r1 in
  setTooltipPosition env (fst p1) (snd p1) r2
  = setTooltipPosition env tooltipStyle (Some arrowStyle) r2.
Proof.
  intros _ _. cbn [setTooltipPosition fst snd]. rewrite !split_head_placement. f_equal.
  - apply map_eq. intros k.
    destruct (decide (k = "top")) as [-> | ?]; [simplify_map_eq; reflexivity |].
    destruct (decide (k = "left")) as [-> | ?]; simplify_map_eq; reflexivity.
  - f_equal. apply map_eq. intros k.
    rewrite (setArrowPosition_lookup env _ (fst (cp_placement r2))).
    rewrite (setArrowPosition_lookup env arrowStyle (fst (cp_placement r2))).
    destruct (bool_decide (k ∈ ["left"; "top"; "right"; "bottom"])) eqn:E; [reflexivity |].
    rewrite setArrowPosition_lookup, E. reflexivity.
Qed.

Lemma position_update_overrides_previous_witness :
  let above := {| cp_x := 10; cp_y := 20; cp_placement := (top, None);
                  cp_arrow := {| arrow_x := Some 7; arrow_y := None |} |} in
  let beside := {| cp_x := 30; cp_y := 40; cp_placement := (left, None);
                   cp_arrow := {| arrow_x := None; arrow_y := Some 9 |} |} in
  let p1 := setTooltipPosition mouse_env ∅ (Some ∅) above in
  snd p1 ≫= (.!! "bottom") = Some "-4px"
  ∧ snd (setTooltipPosition mouse_env (fst p1) (snd p1) beside) ≫= (.!! "bottom") = Some ""
  ∧ snd (setTooltipPosition mouse_env (fst p1) (snd p1) beside) ≫= (.!! "right") = Some "-4px".
Proof.
  cbv zeta.
  assert (0 <= 4) as Hpos by discriminate.
  pose proof (position_update_overrides_previous mouse_env ∅ ∅
                {| cp_x := 10; cp_y := 20; cp_placement := (top, None);
                   cp_arrow := {| arrow_x := Some 7; arrow_y := None |} |}
                {| cp_x := 30; cp_y := 40; cp_placement := (left, None);
                   cp_arrow := {| arrow_x := None; arrow_y := Some 9 |} |}
                4 eq_refl Hpos) as H.
  cbv zeta in H. rewrite H.
  split; [| split]; vm_compute; reflexivity.
Defined.

(** X15: a position update sets the panel's [left] and [top] to the
    computed coordinates in pixels and leaves every other property of the
    panel as it was; on the arrow it touches only [left], [top], [right] and
    [bottom]; without an arrow element it changes the panel alone. *)
Theorem position_update_frame (env : Env) (tooltipStyle arrowStyle : gmap string string)
    (r : ComputePositionReturn) (k : string) :
  let t := fst (setTooltipPosition env tooltipStyle (Some arrowStyle) r) in
  let a := snd (setTooltipPosition env tooltipStyle (Some arrowStyle) r) in
  t !! "left" = Some (px (cp_x r)) ∧ t !! "top" = Some (px (cp_y r))
  ∧ (k ∉ ["left"; "top"] → t !! k = tooltipStyle !! k)
  ∧ (k ∉ ["left"; "top"; "right"; "bottom"] → a ≫= (.!! k) = arrowStyle !! k)
  ∧ setTooltipPosition env tooltipStyle None r = (t, None).
Proof.
  cbn [setTooltipPosition fst snd]. rewrite split_head_placement.
  split; [simplify_map_eq; reflexivity | split; [simplify_map_eq; reflexivity | split; [| split]]].
  - rewrite !not_elem_of_cons. intros (? & ? & _). simplify_map_eq. reflexivity.
  - intros Hk. cbn. rewrite setArrowPosition_lookup.
    rewrite bool_decide_eq_false_2 by exact Hk. reflexivity.
  - reflexivity.
Qed.

Lemma position_update_frame_witness :
  fst (setTooltipPosition mouse_env {["color" := "red"]} (Some ∅)
         {| cp_x := 1; cp_y := 2; cp_placement := (left, None);
            cp_arrow := {| arrow_x := None; arrow_y := Some 3 |} |}) !! "color" = Some "red".
Proof.
  pose proof (position_update_frame mouse_env {["color" := "red"]} ∅
                {| cp_x := 1; cp_y := 2; cp_placement := (left, None);
                   cp_arrow := {| arrow_x := None; arrow_y := Some 3 |} |} "color") as H.
  cbn [setTooltipPosition fst snd] in H. destruct H as (_ & _ & H & _).
  cbn [setTooltipPosition fst]. rewrite H; [reflexivity |].
  rewrite !not_elem_of_cons. repeat split; try discriminate. apply not_elem_of_nil.
Defined.

(** X17: for an override object whose properties all hold numbers, the
    provided configuration has the override's keys and the three option
    keys, each option holding the override's value or else its default, so
    that the arrow offset is rendered from a number. *)
Theorem provided_options_always_defined (o : gmap string Z) :
  let cfg := Tokens.inject Tokens.FLOATING_UI_OPTIONS (Tokens.provideFloatingUiOptions o) in
  dom cfg = dom o ∪ {["arrowHeight"; "arrowPadding"; "longPressDelay"]}
  ∧ cfg !! "arrowHeight" = Some (default 4 (o !! "arrowHeight"))
  ∧ cfg !! "arrowPadding" = Some (default 5 (o !! "arrowPadding"))
  ∧ cfg !! "longPressDelay" = Some (default 500 (o !! "longPressDelay"))
  ∧ interpolate (cfg !! "arrowHeight") = pretty (default 4 (o !! "arrowHeight")).
Proof.
  cbv zeta. rewrite inject_provided.
  assert (∀ k d, Tokens.DEFAULT_OPTIONS !! k = Some d →
                 Tokens.spread Tokens.DEFAULT_OPTIONS o !! k = Some (default d (o !! k))) as Hk.
  { intros k d Hd. rewrite spread_lookup, Hd. destruct (o !! k); reflexivity. }
  split;
    [| rewrite (Hk "arrowHeight" 4 eq_refl), (Hk "arrowPadding" 5 eq_refl),
         (Hk "longPressDelay" 500 eq_refl); repeat split; reflexivity].
  unfold Tokens.spread, Tokens.DEFAULT_OPTIONS.
  rewrite dom_union_L, !dom_insert_L, dom_empty_L. set_solver.
Qed.

Lemma touchstart_arms (env : Env) (u : bool) (s : State) :
  Inv s →
  ∃ id,
    run_callback env CbTouchstart u s =
    {| inputs := inputs s; this := set_touchstartTimeout (Some id) (this s);
       world := set_next (S id)
                  (set_timers [{| t_id := id;
                                  t_due := (now (world s)
                                            + timeout_ms (options env !! "longPressDelay"))%nat;
                                  t_callback := CbShow |}] (world s)) |}.
Proof.
  intros [_ _ _ Hti _ _ _]. apply owns_released in Hti.
  exists (next (world s)). destruct s as [i [vis el ev co cl ls [n |]] w];
    unfold timer_is in Hti; cbn in Hti; cbn [run_callback];
    unfold setTimeout, fresh, clearTimeout; cbv beta iota zeta;
    unfold on_this, on_world; cbn; rewrite Hti; reflexivity.
Qed.

Lemma advance_armed (env : Env) (s : State) (t : Timer) (dt : nat) :
  timers (world s) = [t] → t_callback t = CbShow →
  advance env dt s
  = if Nat.leb (t_due t) (now (world s) + dt)
    then show env (clearTimeout (Some (t_id t)) (on_world (λ w, set_now (now w + dt)%nat w) s))
    else on_world (λ w, set_now (now w + dt)%nat w) s.
Proof.
  intros Ht Hcb. unfold advance.
  set (s' := on_world (λ w, set_now (now w + dt)%nat w) s).
  assert (timers (world s') = [t]) as Ht' by exact Ht.
  rewrite Ht'. cbn [length run_timers]. rewrite Ht'. cbn [find]. unfold due.
  change (now (world s')) with (now (world s) + dt)%nat.
  destruct (Nat.leb (t_due t) (now (world s) + dt)); [| reflexivity].
  rewrite Hcb. reflexivity.
Qed.

Lemma to_int32_in_range (z : Z) : - 2 ^ 31 <= z < 2 ^ 31 → to_int32 z = z.
Proof.
  intros Hz. unfold to_int32.
  change (2 ^ 31) with 2147483648 in *. change (2 ^ 32) with 4294967296.
  rewrite Z.mod_small; lia.
Qed.

Lemma timeout_ms_in_range (z : Z) : 0 <= z < 2 ^ 31 → timeout_ms (Some z) = Z.to_nat z.
Proof.
  intros Hz. unfold timeout_ms. cbn [default from_option id].
  rewrite to_int32_in_range; [reflexivity |].
  change (2 ^ 31) with 2147483648 in *. lia.
Qed.

(** X11: on a hidden instance in a reachable state the touchstart handler
    leaves exactly one timer pending and no panel. The timer's delay is
    [longPressDelay] as [setTimeout] converts it: to a signed 32-bit integer
    (an undefined delay counts as 0, a negative one as 0), so it is
    [longPressDelay] itself when that lies between 0 and 2^31 - 1. Time
    advancing by less than that delay leaves the instance hidden with the
    timer pending; by the delay or more it runs [show]: the flag is set, no
    timer is left, and exactly one panel is mounted when the panel's class
    names are valid class tokens (none otherwise). *)
Theorem long_press_fires_at_delay (env : Env) (i : Inputs) (es : list Event)
    (u : bool) (dt : nat) :
  let s := run env (initial i) es in
  let d := timeout_ms (options env !! "longPressDelay") in
  let s1 := run_callback env CbTouchstart u s in
  (∀ z, options env !! "longPressDelay" = Some z → 0 <= z < 2 ^ 31 → d = Z.to_nat z)
  ∧ (isVisible s = false →
     length (timers (world s1)) = 1%nat ∧ panels s1 = []
     ∧ if Nat.leb d dt
       then isVisible (advance env dt s1) = true
            ∧ length (panels (advance env dt s1)) = (if class_tokens_ok s then 1 else 0)%nat
            ∧ timers (world (advance env dt s1)) = []
       else isVisible (advance env dt s1) = false
            ∧ panels (advance env dt s1) = []
            ∧ length (timers (world (advance env dt s1))) = 1%nat).
Proof.
  intros s d s1. split.
  { intros z Hz Hr. subst d. rewrite Hz. apply timeout_ms_in_range, Hr. }
  pose proof (Inv_reachable env i es) as H. fold s in H.
  pose proof (clean_reachable env i es) as Hc. fold s in Hc.
  unfold isVisible. intros E.
  destruct (Hc E) as (Hb & _ & _).
  pose proof (Inv_run_callback env CbTouchstart u s H) as H1. fold s1 in H1.
  destruct (touchstart_arms env u s H) as (id & Hs1). fold s1 in Hs1. fold d in Hs1.
  assert (timers (world s1) = [{| t_id := id; t_due := (now (world s) + d)%nat;
                                  t_callback := CbShow |}]) as Ht by (rewrite Hs1; reflexivity).
  assert (now (world s1) = now (world s)) as Hnow by (rewrite Hs1; reflexivity).
  assert (_isVisible (this s1) = false) as E1 by (rewrite Hs1; exact E).
  assert (body (world s1) = []) as Hb1 by (rewrite Hs1; exact Hb).
  assert (inputs s1 = inputs s) as Hi1 by (rewrite Hs1; reflexivity).
  split; [rewrite Ht; reflexivity | split; [exact Hb1 |]].
  rewrite (advance_armed env s1 _ dt Ht eq_refl). cbn [t_due t_id]. rewrite Hnow.
  replace (Nat.leb (now (world s) + d) (now (world s) + dt)) with (Nat.leb d dt)
    by (destruct (Nat.leb_spec d dt), (Nat.leb_spec (now (world s) + d) (now (world s) + dt));
        (reflexivity || lia)).
  destruct (Nat.leb d dt).
  - set (x := clearTimeout (Some id) (on_world (λ w, set_now (now w + dt)%nat w) s1)).
    assert (Inv x) as Hx.
    { apply (Inv_clearTimeout (Some id)). destruct H1; constructor; assumption. }
    assert (_isVisible (this x) = false) as Ex by exact E1.
    assert (timers (world x) = []) as Tx.
    { change (timers (world x))
        with (List.filter (λ t, negb (Nat.eqb (t_id t) id)) (timers (world s1))).
      rewrite Ht. cbn. rewrite Nat.eqb_refl. reflexivity. }
    assert (class_tokens_ok x = class_tokens_ok s) as Hcx.
    { unfold class_tokens_ok, panel_classes. change (inputs x) with (inputs s1).
      rewrite Hi1. reflexivity. }
    destruct (show_hidden env x Hx Ex) as (Hlen & Hvis & _). rewrite Hcx in Hlen.
    pose proof (show_no_timer env x Tx) as Hnt. auto.
  - split; [exact E1 | split; [exact Hb1 |]].
    change (length (timers (world s1)) = 1%nat). rewrite Ht. reflexivity.
Qed.

Lemma long_press_fires_at_delay_witness :
  let s := run touch_env (initial hover_inputs) [EvAfterViewInit] in
  let s1 := run_callback touch_env CbTouchstart true s in
  timeout_ms (options touch_env !! "longPressDelay") = 500%nat
  ∧ panels (advance touch_env 499 s1) = []
  ∧ length (panels (advance touch_env 500 s1)) = 1%nat.
Proof.
  cbv zeta.
  pose proof (long_press_fires_at_delay touch_env hover_inputs [EvAfterViewInit] true 499)
    as (Hd & Hbefore).
  pose proof (long_press_fires_at_delay touch_env hover_inputs [EvAfterViewInit] true 500)
    as (_ & Hat).
  assert (isVisible (run touch_env (initial hover_inputs) [EvAfterViewInit]) = false) as Hv
    by (vm_compute; reflexivity).
  assert (0 <= 500 < 2 ^ 31) as Hr by (split; [discriminate | reflexivity]).
  split; [exact (Hd 500 eq_refl Hr) | split].
  - destruct (Hbefore Hv) as (_ & _ & Hb).
    rewrite (Hd 500 eq_refl Hr) in Hb. exact (proj1 (proj2 Hb)).
  - destruct (Hat Hv) as (_ & _ & Ha).
    rewrite (Hd 500 eq_refl Hr) in Ha. exact (proj1 (proj2 Ha)).
Defined.

Lemma owns_named {A} (key : A → nat) (ref : option nat) (l : list A) :
  owns (λ r x, Nat.eqb (key x) r) ref l → Forall (λ x, ref = Some (key x)) l.
Proof.
  intros [-> | (x & r & -> & Hx & ->)]; [constructor |].
  apply Nat.eqb_eq in Hx as <-. repeat constructor.
Qed.

(** X2: in every reachable state at most one long-press timer is pending, at
    most one embedded view is live and at most one position subscription is
    running; each is the one the directive's field names, a pending timer
    always calls [show], and no component is ever instantiated or attached. *)
Theorem at_most_one_of_each_resource (env : Env) (i : Inputs) (es : list Event) :
  let s := run env (initial i) es in
  (length (timers (world s)) ≤ 1)%nat
  ∧ Forall (λ t, touchstartTimeout (this s) = Some (t_id t)) (timers (world s))
  ∧ Forall (λ t, t_callback t = CbShow) (timers (world s))
  ∧ (length (views (world s)) ≤ 1)%nat
  ∧ Forall (λ v, embdedViewRef (this s) = Some (v_id v)) (views (world s))
  ∧ (length (tracking (world s)) ≤ 1)%nat
  ∧ Forall (λ a, cleanupFn (this s) = Some (au_id a)) (tracking (world s))
  ∧ components (world s) = [] ∧ appViews (world s) = [] ∧ componentRef (this s) = None.
Proof.
  intros s. destruct (Inv_reachable env i es) as [_ Hv Htr Hti Hcb (Hc & Ha & Hr) _].
  fold s in Hv, Htr, Hti, Hcb, Hc, Ha, Hr.
  split; [exact (owns_length _ _ _ Hti) |].
  split; [exact (owns_named t_id _ _ Hti) |].
  split; [exact Hcb |].
  split; [exact (owns_length _ _ _ Hv) |].
  split; [exact (owns_named v_id _ _ Hv) |].
  split; [exact (owns_length _ _ _ Htr) |].
  split; [exact (owns_named au_id _ _ Htr) |].
  auto.
Qed.

(** X18: in the earlier revision, whatever the inputs, two [show] calls on a
    new instance mount two panels, and the [hide] that follows removes only
    the second: one panel and one position subscription stay behind on a
    hidden instance. *)
Theorem earlier_second_show_leaks_panel (env : Env) (i : Inputs) :
  let s := Earlier.hide (Earlier.show env (Earlier.show env (initial i))) in
  isVisible s = false
  ∧ length (panels s) = 1%nat
  ∧ length (tracking (world s)) = 1%nat
  ∧ length (panels (Earlier.show env (Earlier.show env (initial i)))) = 2%nat.
Proof.
  destruct i as [c tr pl sa off css dis man]. cbv zeta.
  unfold Earlier.hide, Earlier.show, Earlier.render, Earlier.createElement, createEl, fresh,
    isVisible, panels.
  rewrite destroy_unfold. cbn.
  destruct c as [tpl | | |], sa; cbn; rewrite ?fold_appendChild; cbn; repeat split.
Qed.

(** X12: when [disabled] becomes true on a hidden instance (not manual, not
    on the server), the listeners are detached and nothing else changes: the
    directive's fields, the panels and a pending long-press timer stay as they
    were. *)
Theorem disabling_hidden_instance_only_detaches (env : Env) (i : Inputs) (es : list Event) :
  let s := run env (initial i) es in
  let s' := step env s (EvChanges (set_disabled true (inputs s)) changed) in
  if isVisible s || manual (inputs s) || isServer env then True else
  attached (world s') = [] ∧ this s' = this s
  ∧ timers (world s') = timers (world s) ∧ panels s' = panels s.
Proof.
  intros s s'. pose proof (Inv_reachable env i es) as H. fold s in H.
  unfold isVisible. destruct (_isVisible (this s)) eqn:E; [exact I |].
  destruct (manual (inputs s)) eqn:Em; [exact I |].
  destruct (isServer env) eqn:Es; [exact I |]. cbn [orb].
  subst s'. cbn [step]. unfold ngOnChanges, changed. cbn [firstChange negb inputs on_inputs].
  cbn [manual disabled set_disabled this on_inputs]. rewrite Em, Es, E. cbn [orb].
  split; [| repeat split].
  apply (removeListeners_detaches (on_inputs (λ _, set_disabled true (inputs s)) s)).
  destruct H. assumption.
Qed.

Lemma show_handler (l : Listener) (type : string) :
  well_wired l → In type show_gestures → l_event l = type → h_body (l_handler l) = CbShow.
Proof.
  intros [Hin _] Ht He. rewrite He in Hin. cbn in Hin, Ht.
  repeat (destruct Ht as [<- | Ht];
    [repeat (destruct Hin as [Hin | Hin]; [(discriminate Hin || (injection Hin as <-; auto)) |]);
     destruct Hin |]).
  destruct Ht.
Qed.

Lemma toggle_handler (l : Listener) :
  well_wired l → l_event l = "click" → h_body (l_handler l) = CbToggle.
Proof.
  intros [Hin _] He. rewrite He in Hin. cbn in Hin.
  repeat (destruct Hin as [Hin | Hin]; [congruence |]). destruct Hin.
Qed.

Lemma dispatch_shows (env : Env) (type : string) (u : bool) (ls : list Listener) (s : State)
    (k : nat) :
  In type show_gestures → Forall well_wired ls → Inv s →
  (_isVisible (this s) = true ∧ length (panels s) = k)
  ∨ (_isVisible (this s) = false
     ∧ List.filter (λ l, String.eqb (l_event l) type) ls ≠ []
     ∧ k = (if class_tokens_ok s then 1 else 0)%nat) →
  let s' := fold_left
     (λ st l, if String.eqb (l_event l) type
              then run_callback env (h_body (l_handler l)) u st else st) ls s in
  _isVisible (this s') = true ∧ length (panels s') = k.
Proof.
  intros Ht. revert s. induction ls as [| l ls IH]; cbn [fold_left List.filter]; intros s W H Hs.
  - destruct Hs as [Hs | (_ & Hs & _)]; [exact Hs | contradiction].
  - apply Forall_cons in W as [Wl W].
    destruct (String.eqb (l_event l) type) eqn:E; [| apply IH; assumption].
    apply String.eqb_eq in E. rewrite (show_handler l type Wl Ht E). cbn [run_callback].
    apply IH; [exact W | apply Inv_show, H | left].
    destruct Hs as [[Hv Hp] | (Hv & _ & ->)].
    + rewrite (show_visible env s Hv). auto.
    + destruct (show_hidden env s H Hv) as (Hlen & Hvis & _). auto.
Qed.

(** X7: on a hidden instance in a reachable state, a focus or mouseenter
    event for which a handler is registered leaves the instance flagged
    visible, and, however many handlers are registered for it, with exactly
    one panel when the panel's class names are valid class tokens (with none
    otherwise). *)
Theorem show_gesture_mounts_one_panel (env : Env) (i : Inputs) (es : list Event)
    (type : string) (u : bool) :
  let s := run env (initial i) es in
  In type show_gestures → handlers_for type s ≠ [] → isVisible s = false →
  isVisible (dispatch env type u s) = true
  ∧ length (panels (dispatch env type u s)) = (if class_tokens_ok s then 1 else 0)%nat.
Proof.
  intros s Ht Hh Hv.
  apply dispatch_shows;
    [exact Ht | apply attached_well_wired | apply Inv_reachable | right; auto].
Qed.

Lemma show_gesture_mounts_one_panel_witness :
  let s := run mouse_env (initial hover_inputs) [EvAfterViewInit] in
  length (panels (dispatch mouse_env "mouseenter" true s)) = 1%nat.
Proof.
  cbv zeta.
  assert (In "mouseenter" show_gestures) as Ht by (right; left; reflexivity).
  assert (handlers_for "mouseenter" (run mouse_env (initial hover_inputs) [EvAfterViewInit])
          ≠ []) as Hh by (vm_compute; discriminate).
  assert (isVisible (run mouse_env (initial hover_inputs) [EvAfterViewInit]) = false) as Hv
    by (vm_compute; reflexivity).
  exact (proj2 (show_gesture_mounts_one_panel mouse_env hover_inputs [EvAfterViewInit]
                  "mouseenter" true Ht Hh Hv)).
Defined.

Lemma dispatch_click_iter (env : Env) (u : bool) (ls : list Listener) (s : State) :
  Forall well_wired ls →
  fold_left
    (λ st l, if String.eqb (l_event l) "click"
             then run_callback env (h_body (l_handler l)) u st else st) ls s
  = Nat.iter (length (List.filter (λ l, String.eqb (l_event l) "click") ls)) (toggle env) s.
Proof.
  revert s. induction ls as [| l ls IH]; cbn [fold_left List.filter]; intros s W; [reflexivity |].
  apply Forall_cons in W as [Wl W].
  destruct (String.eqb (l_event l) "click") eqn:E; [| apply IH, W].
  apply String.eqb_eq in E. rewrite (toggle_handler l Wl E). cbn [run_callback length].
  rewrite Nat.iter_succ_r. apply IH, W.
Qed.

(** X10: in a reachable state a click event runs [toggle] once per click
    handler registered, so the visibility flag is negated exactly when their
    number is odd. *)
Theorem click_toggles_once_per_handler (env : Env) (i : Inputs) (es : list Event) (u : bool) :
  let s := run env (initial i) es in
  dispatch env "click" u s = Nat.iter (length (handlers_for "click" s)) (toggle env) s
  ∧ isVisible (dispatch env "click" u s)
    = if Nat.even (length (handlers_for "click" s)) then isVisible s else negb (isVisible s).
Proof.
  intros s.
  assert (dispatch env "click" u s
          = Nat.iter (length (handlers_for "click" s)) (toggle env) s) as Hd
    by (apply dispatch_click_iter, attached_well_wired).
  split; [exact Hd |]. rewrite Hd.
  assert (∀ x, isVisible (toggle env x) = negb (isVisible x)) as Hflip.
  { intros x. unfold isVisible, toggle. destruct (_isVisible (this x)); cbn;
      [apply hide_is_hidden | apply show_is_visible]. }
  generalize (length (handlers_for "click" s)) as n. intros n.
  induction n as [| n IH]; [reflexivity |].
  rewrite Nat.even_succ, <- Nat.negb_even, Nat.iter_succ, Hflip, IH.
  destruct (Nat.even n); cbn; [reflexivity | apply negb_involutive].
Qed.
